(** * The image scraper of playwright_web_scrapping.py

    A shallow embedding of the session cache ([authenticate]), the
    per-element classifier ([is_meaningful_image] and its probers,
    [extract_svgs]) and the crawl loop ([extract_images], [crawl_links]).

    The browser driver is the environment: every driver call made by the
    script (attribute read, in-page evaluation, navigation, screenshot)
    either returns a value or raises, and that outcome is a field of the
    element or page the call is made on.  The Python code on top of it is
    translated statement by statement; [try]/[except]/[finally] become the
    combinators of a small error monad, and the calls that change the
    outside world are logged in a trace. *)

From Stdlib Require Import ZArith QArith List String Ascii Bool Lia DecimalString.
Import ListNotations.
Open Scope string_scope.
Open Scope list_scope.
Open Scope Z_scope.

(* ================================================================== *)
(** * Exceptions and results *)

Inductive exn : Type :=
  | PlaywrightError   (* playwright.async_api.Error *)
  | TimeoutError      (* playwright.async_api.TimeoutError *)
  | ValueError
  | TypeError.

Inductive result (A : Type) : Type :=
  | Ok (a : A)
  | Raise (e : exn).
Arguments Ok {A} a.
Arguments Raise {A} e.

Definition rbind {A B : Type} (r : result A) (k : A -> result B) : result B :=
  match r with
  | Ok a => k a
  | Raise e => Raise e
  end.

(** [except (ValueError, TypeError)]. *)
Definition is_value_or_type_error (e : exn) : bool :=
  match e with
  | ValueError | TypeError => true
  | _ => false
  end.

Definition rcatch {A : Type} (handles : exn -> bool) (r : result A)
    (handler : exn -> result A) : result A :=
  match r with
  | Ok a => Ok a
  | Raise e => if handles e then handler e else Raise e
  end.

Declare Scope result_scope.
Delimit Scope result_scope with result.
Notation "x <- r ;; k" := (rbind r (fun x => k))
  (at level 61, r at next level, right associativity) : result_scope.

(* ================================================================== *)
(** * Python strings

    A Python [str] is modelled as a Rocq [string], one character per code
    point; the character classes below are those of Python for the code
    points 0 to 255. *)

Definition code (c : ascii) : nat := nat_of_ascii c.

Definition in_range (lo hi : nat) (c : ascii) : bool :=
  (Nat.leb lo (code c) && Nat.leb (code c) hi)%bool.

Definition is_ascii_digit (c : ascii) : bool := in_range 48 57 c.

Definition digit_value (c : ascii) : Z := Z.of_nat (code c) - 48.

(** The characters [int()] skips around a literal: the ASCII white space
    of the C parser, and the two Latin-1 Unicode spaces (NEL, NBSP) that
    are mapped to a blank before parsing. *)
Definition py_int_space (c : ascii) : bool :=
  (in_range 9 13 c || Nat.eqb (code c) 32
   || Nat.eqb (code c) 133 || Nat.eqb (code c) 160)%bool.

(** [str.isdigit()] on one character: the decimal digits and the
    superscripts 2, 3 and 1. *)
Definition py_isdigit_char (c : ascii) : bool :=
  (is_ascii_digit c || Nat.eqb (code c) 178 || Nat.eqb (code c) 179
   || Nat.eqb (code c) 185)%bool.

(** [str.isalnum()] on one character. *)
Definition py_isalnum_char (c : ascii) : bool :=
  (is_ascii_digit c || in_range 65 90 c || in_range 97 122 c
   || Nat.eqb (code c) 170 || Nat.eqb (code c) 178 || Nat.eqb (code c) 179
   || Nat.eqb (code c) 181 || Nat.eqb (code c) 185 || Nat.eqb (code c) 186
   || in_range 188 190 c || in_range 192 214 c || in_range 216 246 c
   || in_range 248 255 c)%bool.

Fixpoint forallb_string (p : ascii -> bool) (s : string) : bool :=
  match s with
  | EmptyString => true
  | String c r => (p c && forallb_string p r)%bool
  end.

(** [s.isdigit()]: false on the empty string. *)
Definition isdigit (s : string) : bool :=
  match s with
  | EmptyString => false
  | _ => forallb_string py_isdigit_char s
  end.

(** Truth value of an [Optional[str]]: [None] and the empty string are
    falsy. *)
Definition truthy (o : option string) : bool :=
  match o with
  | Some (String _ _) => true
  | _ => false
  end.

Fixpoint drop_while (p : ascii -> bool) (l : list ascii) : list ascii :=
  match l with
  | [] => []
  | c :: r => if p c then drop_while p r else l
  end.

Definition strip_with (p : ascii -> bool) (l : list ascii) : list ascii :=
  rev (drop_while p (rev (drop_while p l))).

(** State of the digit scanner of [int()]: underscores are allowed only
    between two digits. *)
Inductive scan_state : Type := AtStart | AfterDigit | AfterUnderscore.

Fixpoint scan_digits (l : list ascii) (st : scan_state) (acc : Z) (ndigits : nat)
    : option (Z * nat) :=
  match l with
  | [] => match st with AfterDigit => Some (acc, ndigits) | _ => None end
  | c :: r =>
      if is_ascii_digit c then
        scan_digits r AfterDigit (10 * acc + digit_value c) (S ndigits)
      else if Ascii.eqb c "_" then
        match st with
        | AfterDigit => scan_digits r AfterUnderscore acc ndigits
        | _ => None
        end
      else None
  end.

(** Default of [sys.get_int_max_str_digits()]. *)
Definition int_max_str_digits : nat := 4300.

(** [int(s)] for a string [s], base 10: optional white space, an optional
    sign, digits with single underscores between them, optional white
    space; anything else is a [ValueError]. *)
Definition py_int (s : string) : result Z :=
  let body := strip_with py_int_space (list_ascii_of_string s) in
  let '(negative, digits) :=
    match body with
    | c :: r =>
        if Ascii.eqb c "-" then (true, r)
        else if Ascii.eqb c "+" then (false, r)
        else (false, body)
    | [] => (false, body)
    end in
  match scan_digits digits AtStart 0 0 with
  | Some (n, k) =>
      if Nat.ltb int_max_str_digits k then Raise ValueError
      else Ok (if negative then - n else n)
  | None => Raise ValueError
  end.

(* ================================================================== *)
(** * JavaScript numbers and [parseInt]

    The in-page scripts compute with JavaScript numbers.  An integer
    result is modelled by its exact value (the rounding of integers
    beyond 2^53 and the sign of zero are left out), geometry by
    rationals. *)

Inductive number : Type :=
  | Int (n : Z)
  | NaN.

(** [response_size > 10240] on the Python side; a NaN compares false. *)
Definition number_gt (x : number) (bound : Z) : bool :=
  match x with
  | Int n => bound <? n
  | NaN => false
  end.

Definition js_space (c : ascii) : bool :=
  (in_range 9 13 c || Nat.eqb (code c) 32 || Nat.eqb (code c) 160)%bool.

Definition hex_value (c : ascii) : option Z :=
  if is_ascii_digit c then Some (digit_value c)
  else if in_range 97 102 c then Some (Z.of_nat (code c) - 87)
  else if in_range 65 70 c then Some (Z.of_nat (code c) - 55)
  else None.

Definition radix_value (radix : Z) (c : ascii) : option Z :=
  if radix =? 16 then hex_value c
  else if is_ascii_digit c then Some (digit_value c) else None.

(** The longest prefix of digits of the radix, read as a number;
    [None] when that prefix is empty. *)
Fixpoint read_prefix (radix : Z) (l : list ascii) (acc : option Z) : option Z :=
  match l with
  | [] => acc
  | c :: r =>
      match radix_value radix c with
      | Some d =>
          read_prefix radix r
            (Some (radix * match acc with Some a => a | None => 0 end + d))
      | None => acc
      end
  end.

(** [parseInt(s)] with no radix argument. *)
Definition parseInt (s : string) : number :=
  let s1 := drop_while js_space (list_ascii_of_string s) in
  let '(negative, s2) :=
    match s1 with
    | c :: r =>
        if Ascii.eqb c "-" then (true, r)
        else if Ascii.eqb c "+" then (false, r)
        else (false, s1)
    | [] => (false, s1)
    end in
  let '(radix, s3) :=
    match s2 with
    | z :: x :: r =>
        if (Ascii.eqb z "0" && (Ascii.eqb x "x" || Ascii.eqb x "X"))%bool
        then (16, r) else (10, s2)
    | _ => (10, s2)
    end in
  match read_prefix radix s3 None with
  | Some n => Int (if negative then - n else n)
  | None => NaN
  end.

Definition Qltb (x y : Q) : bool := negb (Qle_bool y x).

(* ================================================================== *)
(** * Configuration (config.ini) *)

Record config : Type := {
  URL : string;
  USERNAME : string;
  PASSWORD : string;
  AUTHENTICATION_URL : string;
  HEADLESS : bool;
  TIMEOUT : Z;
  SCREENSHOT_DIR : string;
  AUTH_STATE_PATH : string;
  AUTH_MAX_AGE_HOURS : Z;
  MEANINGFUL_IMAGE_FILE : string;
  ALL_IMAGES_FILE : string;
  SVGS_FILE : string
}.

(** [AUTH_MAX_AGE = int(config['Settings']['AUTH_MAX_AGE_HOURS']) * 3600] *)
Definition AUTH_MAX_AGE (cfg : config) : Z := AUTH_MAX_AGE_HOURS cfg * 3600.

(* ================================================================== *)
(** * Data model *)

(** [ScrapedImage].  The fields hold what the script stores in them at run
    time: the position flags are [None] after a failed geometry probe and
    [file_size] is [None] after a failed size probe. *)
Module ScrapedImage.
Record t : Type := mk {
  src : string;
  url : string;
  alt : option string;
  is_header : option bool;
  is_footer : option bool;
  is_logo : bool;
  file_size : option number;
  is_large_file : bool;
  width : option Z;
  height : option Z;
  has_image_shape : bool;
  is_meaningful : bool;
  screenshot_path : option string
}.

(** [ScrapedImage(src=src, url=url, alt=alt)] with the dataclass defaults. *)
Definition init (src url : string) (alt : option string) : t :=
  mk src url alt (Some false) (Some false) false (Some (Int 0)) false
     None None false false None.

Definition set_is_header (v : option bool) (r : t) : t :=
  mk (src r) (url r) (alt r) v (is_footer r) (is_logo r) (file_size r)
     (is_large_file r) (width r) (height r) (has_image_shape r)
     (is_meaningful r) (screenshot_path r).
Definition set_is_footer (v : option bool) (r : t) : t :=
  mk (src r) (url r) (alt r) (is_header r) v (is_logo r) (file_size r)
     (is_large_file r) (width r) (height r) (has_image_shape r)
     (is_meaningful r) (screenshot_path r).
Definition set_is_logo (v : bool) (r : t) : t :=
  mk (src r) (url r) (alt r) (is_header r) (is_footer r) v (file_size r)
     (is_large_file r) (width r) (height r) (has_image_shape r)
     (is_meaningful r) (screenshot_path r).
Definition set_file_size (v : option number) (r : t) : t :=
  mk (src r) (url r) (alt r) (is_header r) (is_footer r) (is_logo r) v
     (is_large_file r) (width r) (height r) (has_image_shape r)
     (is_meaningful r) (screenshot_path r).
Definition set_is_large_file (v : bool) (r : t) : t :=
  mk (src r) (url r) (alt r) (is_header r) (is_footer r) (is_logo r)
     (file_size r) v (width r) (height r) (has_image_shape r)
     (is_meaningful r) (screenshot_path r).
Definition set_width (v : option Z) (r : t) : t :=
  mk (src r) (url r) (alt r) (is_header r) (is_footer r) (is_logo r)
     (file_size r) (is_large_file r) v (height r) (has_image_shape r)
     (is_meaningful r) (screenshot_path r).
Definition set_height (v : option Z) (r : t) : t :=
  mk (src r) (url r) (alt r) (is_header r) (is_footer r) (is_logo r)
     (file_size r) (is_large_file r) (width r) v (has_image_shape r)
     (is_meaningful r) (screenshot_path r).
Definition set_has_image_shape (v : bool) (r : t) : t :=
  mk (src r) (url r) (alt r) (is_header r) (is_footer r) (is_logo r)
     (file_size r) (is_large_file r) (width r) (height r) v
     (is_meaningful r) (screenshot_path r).
Definition set_is_meaningful (v : bool) (r : t) : t :=
  mk (src r) (url r) (alt r) (is_header r) (is_footer r) (is_logo r)
     (file_size r) (is_large_file r) (width r) (height r)
     (has_image_shape r) v (screenshot_path r).
Definition set_screenshot_path (v : option string) (r : t) : t :=
  mk (src r) (url r) (alt r) (is_header r) (is_footer r) (is_logo r)
     (file_size r) (is_large_file r) (width r) (height r)
     (has_image_shape r) (is_meaningful r) v.
End ScrapedImage.

(** [ScrapedSVG]. *)
Module ScrapedSVG.
Record t : Type := mk {
  url : string;
  is_inline : bool;
  content : option string;
  src : option string;
  width : option Z;
  height : option Z;
  is_header : option bool;
  is_footer : option bool;
  is_logo : bool;
  screenshot_path : option string
}.

Definition set_screenshot_path (v : option string) (r : t) : t :=
  mk (url r) (is_inline r) (content r) (src r) (width r) (height r)
     (is_header r) (is_footer r) (is_logo r) v.
End ScrapedSVG.

(* ================================================================== *)
(** * The browser driver as environment *)

(** What a geometry script sees when it runs:
    [getBoundingClientRect()], [document.documentElement.scrollHeight]
    and [window.innerHeight]. *)
Record layout : Type := {
  rect_top : Q;
  rect_bottom : Q;
  rect_left : Q;
  rect_width : Q;
  rect_height : Q;
  documentHeight : Q;
  viewportHeight : Q
}.

(** An element handle: the outcome of each call the script makes on it. *)
Module Element.
Record t : Type := {
  get_attribute : string -> result (option string);
  layout_probe : result layout;      (* [evaluate] of a geometry script *)
  outerHTML : result string;         (* [evaluate("svg => svg.outerHTML")] *)
  screenshot : result unit
}.
End Element.

(** Outcome of [fetch(url, { method: 'HEAD' })] inside the page: the
    promise rejects, or a response arrives whose [Content-Length] header
    is present or not. *)
Inductive head_outcome : Type :=
  | FetchRejected
  | Response (content_length : option string).

(** A page: the outcome of each call the script makes on it once it is
    (being) navigated to its address. *)
Module Page.
Record t : Type := {
  url : string;
  goto : result unit;
  wait_for_load_state : string -> result unit;
  query_selector_all : string -> result (list Element.t);
  query_selector : string -> result (option Element.t);
  head_request : string -> result head_outcome;
  login_button : result bool;   (* does [.login-button] match? *)
  fill : string -> string -> result unit;
  click : string -> result unit;
  screenshot : result unit;
  close : result unit
}.
End Page.

(* ================================================================== *)
(** * Geometry prober *)

Record position_check : Type := {
  isTopSection : bool;
  isBottomSection : bool
}.

(** The script of [is_header_footer_logo]. *)
Definition position_script (g : layout) : position_check :=
  {| isTopSection := Qltb (rect_top g) (viewportHeight g * (1 # 10));
     isBottomSection :=
       Qltb (documentHeight g - viewportHeight g * (1 # 10)) (rect_bottom g) |}.

Definition is_header_footer_logo (image : Element.t)
    : option bool * option bool * bool :=
  match Element.layout_probe image with
  | Ok g =>
      let position_check := position_script g in
      let is_header := isTopSection position_check in
      let is_footer := isBottomSection position_check in
      if (is_header || is_footer)%bool
      then (Some is_header, Some is_footer, true)
      else (Some is_header, Some is_footer, false)
  | Raise _ => (None, None, false)
  end.

(* ================================================================== *)
(** * Resource prober *)

(** The script of [check_file_image_size]:
    [parseInt(response.headers.get('Content-Length') || '0')], and [0]
    when the fetch is rejected. *)
Definition head_script (o : head_outcome) : number :=
  match o with
  | Response (Some (String c s)) => parseInt (String c s)
  | Response _ => parseInt "0"
  | FetchRejected => Int 0
  end.

Definition check_file_image_size (page : Page.t) (src : string)
    : option number * bool :=
  match Page.head_request page src with
  | Ok o =>
      let response_size := head_script o in
      (Some response_size, number_gt response_size 10240)
  | Raise _ => (None, false)
  end.

(* ================================================================== *)
(** * Declared dimensions *)

Definition check_image_size (image : Element.t)
    : result (option Z * option Z * bool) :=
  (width <- Element.get_attribute image "width" ;;
   height <- Element.get_attribute image "height" ;;
   if (negb (truthy width) || negb (truthy height))%bool then
     Ok (None, None, false)
   else
     match width, height with
     | Some width, Some height =>
         rcatch is_value_or_type_error
           (width <- py_int width ;;
            height <- py_int height ;;
            if ((100 <? width) && (100 <? height))%bool
            then Ok (Some width, Some height, true)
            else Ok (None, None, false))
           (fun _ => Ok (None, None, false))
     | _, _ => Ok (None, None, false)
     end)%result.

(* ================================================================== *)
(** * Significance classifier for raster images *)

Definition is_meaningful_image (image : Element.t) (page : Page.t)
    : result (option ScrapedImage.t) :=
  (src <- Element.get_attribute image "src" ;;
   match src with
   | Some (String c s) =>
       let src := String c s in
       alt <- Element.get_attribute image "alt" ;;
       let scraped_image := ScrapedImage.init src (Page.url page) alt in
       let '(is_header, is_footer, is_logo) := is_header_footer_logo image in
       let scraped_image := ScrapedImage.set_is_header is_header scraped_image in
       let scraped_image := ScrapedImage.set_is_footer is_footer scraped_image in
       let scraped_image := ScrapedImage.set_is_logo is_logo scraped_image in
       let '(file_size, is_large_file) := check_file_image_size page src in
       let scraped_image := ScrapedImage.set_file_size file_size scraped_image in
       let scraped_image :=
         ScrapedImage.set_is_large_file is_large_file scraped_image in
       shape <- check_image_size image ;;
       let '(width, height, has_image_shape) := shape in
       let scraped_image := ScrapedImage.set_width width scraped_image in
       let scraped_image := ScrapedImage.set_height height scraped_image in
       let scraped_image :=
         ScrapedImage.set_has_image_shape has_image_shape scraped_image in
       let scraped_image :=
         ScrapedImage.set_is_meaningful
           (negb is_logo && is_large_file && has_image_shape)%bool
           scraped_image in
       Ok (Some scraped_image)
   | _ => Ok None
   end)%result.

(* ================================================================== *)
(** * Effects: the trace of driver and file-system calls

    [print] calls are left out; every other call that acts on the outside
    world is logged, in order, whether it returns or raises.  Launching
    and closing the browser, opening a context or a page, sleeping,
    [os.makedirs] and the writing of the output files are taken to
    succeed; every other call has its outcome in the environment. *)

Inductive context : Type :=
  | Context (storage_state : option string).

Inductive event : Type :=
  | Launch (headless : bool) (timeout : Z)
  | NewContext (storage_state : option string)
  | NewPage
  | Goto (url : string) (timeout : option Z)
  | WaitForLoadState (state : string)
  | Fill (selector value : string)
  | Click (selector : string)
  | StorageState (path : string)
  | ClosePage
  | CloseBrowser
  | Sleep (seconds : Z)
  | Makedirs (path : string)
  | ElementScreenshot (path : string)
  | PageScreenshot (path : string)
  | DumpImages (file : string) (records : list ScrapedImage.t)
  | DumpSVGs (file : string) (records : list ScrapedSVG.t).

(** A computation: its result or exception, and the calls it made. *)
Definition M (A : Type) : Type := result A * list event.

Definition ret {A : Type} (a : A) : M A := (Ok a, []).

Definition raise {A : Type} (e : exn) : M A := (Raise e, []).

Definition bind {A B : Type} (m : M A) (k : A -> M B) : M B :=
  match m with
  | (Ok a, t) => let '(r, t') := k a in (r, t ++ t')
  | (Raise e, t) => (Raise e, t)
  end.

(** A logged call with its outcome, and an unlogged one. *)
Definition call {A : Type} (ev : event) (outcome : result A) : M A :=
  (outcome, [ev]).

Definition lift {A : Type} (outcome : result A) : M A := (outcome, []).

(** [try: m  except Exception as e: handler e] *)
Definition try_except {A : Type} (m : M A) (handler : exn -> M A) : M A :=
  match m with
  | (Ok a, t) => (Ok a, t)
  | (Raise e, t) => let '(r, t') := handler e in (r, t ++ t')
  end.

(** [try: m  finally: cleanup] *)
Definition try_finally {A : Type} (m : M A) (cleanup : M unit) : M A :=
  let '(r, t) := m in
  match cleanup with
  | (Ok _, t') => (r, t ++ t')
  | (Raise e, t') => (Raise e, t ++ t')
  end.

Declare Scope M_scope.
Delimit Scope M_scope with M.
Notation "x <- m ;; k" := (bind m (fun x => k))
  (at level 61, m at next level, right associativity) : M_scope.
Notation "m ;; k" := (bind m (fun _ => k))
  (at level 61, right associativity) : M_scope.

(** [for i, x in enumerate(l, start): s = body(i, x, s)] *)
Fixpoint for_enumerate {A St : Type} (body : nat -> A -> St -> M St)
    (i : nat) (l : list A) (s : St) : M St :=
  match l with
  | [] => ret s
  | x :: r => (s' <- body i x s ;; for_enumerate body (S i) r s')%M
  end.

(* ================================================================== *)
(** * String helpers of the screenshot resolver *)

(** [str(n)] for a natural number. *)
Definition str (n : nat) : string := NilZero.string_of_uint (Nat.to_uint n).

(** [s.split(c)[0]] *)
Fixpoint before_char (c : ascii) (s : string) : string :=
  match s with
  | EmptyString => EmptyString
  | String d r => if Ascii.eqb d c then EmptyString else String d (before_char c r)
  end.

(** [os.path.basename(s)] *)
Fixpoint basename_from (s : string) (acc : string) : string :=
  match s with
  | EmptyString => acc
  | String d r =>
      if Ascii.eqb d "/" then basename_from r EmptyString
      else basename_from r (acc ++ String d EmptyString)%string
  end.
Definition basename (s : string) : string := basename_from s EmptyString.

Fixpoint contains_char (c : ascii) (s : string) : bool :=
  match s with
  | EmptyString => false
  | String d r => (Ascii.eqb d c || contains_char c r)%bool
  end.

Fixpoint filter_string (p : ascii -> bool) (s : string) : string :=
  match s with
  | EmptyString => EmptyString
  | String d r => if p d then String d (filter_string p r) else filter_string p r
  end.

Fixpoint last_char (s : string) : option ascii :=
  match s with
  | EmptyString => None
  | String d EmptyString => Some d
  | String _ r => last_char r
  end.

(** [os.path.join(a, b)] (POSIX). *)
Definition path_join (a b : string) : string :=
  if String.prefix "/" b then b
  else match last_char a with
       | None => b
       | Some d => if Ascii.eqb d "/" then (a ++ b)%string
                   else (a ++ "/" ++ b)%string
       end.

(** The file name [save_image_screenshot] derives from the position index
    and the resource locator. *)
Definition screenshot_filename (image_url : string) (index : nat) : string :=
  let filename := (str index ++ "_" ++ basename (before_char "?" image_url))%string in
  let filename :=
    if negb (contains_char "." filename) then (filename ++ ".png")%string
    else filename in
  substring 0 100
    (filter_string
       (fun c => (py_isalnum_char c || contains_char c "._-")%bool) filename).

(* ================================================================== *)
(** * The world outside the script *)

Record world : Type := {
  web : string -> Page.t;           (* the page an address loads *)
  auth_state_mtime : option Q;      (* [os.path.getmtime], when the file exists *)
  now : Q;                          (* [time.time()] *)
  storage_state : result unit       (* [context.storage_state(path=...)] *)
}.

(** What [extract_images] returns: the triple of lists, or the empty
    list of its [except] branch. *)
Inductive extracted : Type :=
  | Triple (meaningful_images all_images : list ScrapedImage.t)
           (svgs : list ScrapedSVG.t)
  | EmptyList.

Section Scraper.

Variable cfg : config.
Variable w : world.

(* ------------------------------------------------------------------ *)
(** ** Screenshot resolver *)

Definition save_image_screenshot (page : Page.t) (image_data : ScrapedImage.t)
    (index : nat) : M (option string) :=
  try_except
    (let image_url := ScrapedImage.src image_data in
     let filename := screenshot_filename image_url index in
     let filepath := path_join (SCREENSHOT_DIR cfg) filename in
     (* Method 1: screenshot the element directly *)
     first <-
       try_except
         (new_image <- lift (Page.query_selector page
                       ("img[src='" ++ ScrapedImage.src image_data ++ "']")%string) ;;
          match new_image with
          | Some new_image =>
              call (ElementScreenshot filepath) (Element.screenshot new_image) ;;
              ret (Some filepath)
          | None => ret None
          end)
         (fun _ => ret None) ;;
     match first with
     | Some filepath => ret (Some filepath)
     | None =>
         (* Method 2: navigate to the image URL if it is a full URL *)
         if (String.prefix "http://" (ScrapedImage.src image_data)
             || String.prefix "https://" (ScrapedImage.src image_data))%bool
         then
           second <-
             try_except
               (call NewPage (Ok tt) ;;
                let image_page := web w (ScrapedImage.src image_data) in
                call (Goto (ScrapedImage.src image_data) (Some 10000))
                     (Page.goto image_page) ;;
                call (PageScreenshot filepath) (Page.screenshot image_page) ;;
                call ClosePage (Page.close image_page) ;;
                ret (Some filepath))
               (fun _ => ret None) ;;
           match second with
           | Some filepath => ret (Some filepath)
           | None => ret None
           end
         else ret None
     end)%M
    (fun _ => ret None).

(* ------------------------------------------------------------------ *)
(** ** Vector graphics *)

Record position_data : Type := {
  isHeader : bool;
  isFooter : bool;
  isLogo : bool
}.

(** The geometry script of the inline branch of [extract_svgs]. *)
Definition svg_position_script (g : layout) : position_data :=
  {| isHeader := Qltb (rect_top g) (viewportHeight g * (1 # 10));
     isFooter :=
       Qltb (documentHeight g - viewportHeight g * (1 # 10)) (rect_bottom g);
     isLogo :=
       (Qltb (rect_width g) 200 && Qltb (rect_height g) 100
        && (Qltb (rect_top g) (viewportHeight g * (2 # 10))
            || Qltb (rect_left g) (viewportHeight g * (2 # 10))))%bool |}.

(** [int(v) if v and v.isdigit() else None] *)
Definition svg_dimension (v : option string) : result (option Z) :=
  match v with
  | Some s =>
      if (truthy v && isdigit s)%bool
      then (n <- py_int s ;; Ok (Some n))%result
      else Ok None
  | None => Ok None
  end.

Definition inline_svg (page : Page.t) (i : nat) (svg : Element.t)
    (svgs : list ScrapedSVG.t) : M (list ScrapedSVG.t) :=
  try_except
    (width <- lift (Element.get_attribute svg "width") ;;
     height <- lift (Element.get_attribute svg "height") ;;
     width <- lift (svg_dimension width) ;;
     height <- lift (svg_dimension height) ;;
     content <- lift (Element.outerHTML svg) ;;
     g <- lift (Element.layout_probe svg) ;;
     let position_data := svg_position_script g in
     let svg_obj :=
       ScrapedSVG.mk (Page.url page) true (Some content) None width height
         (Some (isHeader position_data)) (Some (isFooter position_data))
         (isLogo position_data) None in
     svg_obj <-
       try_except
         (call (Makedirs (SCREENSHOT_DIR cfg)) (Ok tt) ;;
          let filename := ("inline_svg_" ++ str i ++ ".png")%string in
          let filepath := path_join (SCREENSHOT_DIR cfg) filename in
          call (ElementScreenshot filepath) (Element.screenshot svg) ;;
          ret (ScrapedSVG.set_screenshot_path (Some filepath) svg_obj))
         (fun _ => ret svg_obj) ;;
     ret (svgs ++ [svg_obj]))%M
    (fun _ => ret svgs).

Definition svg_image (page : Page.t) (i : nat) (img : Element.t)
    (svgs : list ScrapedSVG.t) : M (list ScrapedSVG.t) :=
  try_except
    (src <- lift (Element.get_attribute img "src") ;;
     if negb (truthy src) then ret svgs      (* continue *)
     else
       width <- lift (Element.get_attribute img "width") ;;
       height <- lift (Element.get_attribute img "height") ;;
       width <- lift (svg_dimension width) ;;
       height <- lift (svg_dimension height) ;;
       let '(is_header, is_footer, is_logo) := is_header_footer_logo img in
       let svg_obj :=
         ScrapedSVG.mk (Page.url page) false None src width height
           is_header is_footer is_logo None in
       svg_obj <-
         try_except
           (call (Makedirs (SCREENSHOT_DIR cfg)) (Ok tt) ;;
            let filename := ("svg_img_" ++ str i ++ ".png")%string in
            let filepath := path_join (SCREENSHOT_DIR cfg) filename in
            call (ElementScreenshot filepath) (Element.screenshot img) ;;
            ret (ScrapedSVG.set_screenshot_path (Some filepath) svg_obj))
           (fun _ => ret svg_obj) ;;
       ret (svgs ++ [svg_obj]))%M
    (fun _ => ret svgs).

Definition svg_object (page : Page.t) (i : nat) (obj : Element.t)
    (svgs : list ScrapedSVG.t) : M (list ScrapedSVG.t) :=
  try_except
    (data <- lift (Element.get_attribute obj "data") ;;
     (* [get_attribute("data") or get_attribute("src")] *)
     src <- (if truthy data then ret data
             else lift (Element.get_attribute obj "src")) ;;
     if negb (truthy src) then ret svgs      (* continue *)
     else
       let svg_obj :=
         ScrapedSVG.mk (Page.url page) false None src None None
           (Some false) (Some false) false None in
       ret (svgs ++ [svg_obj]))%M
    (fun _ => ret svgs).

Definition extract_svgs (page : Page.t) : M (list ScrapedSVG.t) :=
  (let svgs := [] in
   (* 1. inline SVG elements *)
   inline_svgs <- lift (Page.query_selector_all page "svg") ;;
   svgs <- for_enumerate (inline_svg page) 0 inline_svgs svgs ;;
   (* 2. SVGs loaded via img tags *)
   svg_images <- lift (Page.query_selector_all page "img[src$='.svg']") ;;
   svgs <- for_enumerate (svg_image page) 0 svg_images svgs ;;
   (* 3. SVGs in object/embed tags *)
   svg_objects <- lift (Page.query_selector_all page
                    "object[type='image/svg+xml'], embed[type='image/svg+xml']") ;;
   svgs <- for_enumerate (svg_object page) 0 svg_objects svgs ;;
   ret svgs)%M.

(* ------------------------------------------------------------------ *)
(** ** One page *)

(** Body of the loop over the [img] elements.  [image_data] is one object,
    appended to both lists; the screenshot path written into it after it
    was appended to [all_images] is therefore seen through both. *)
Definition classify_one (page : Page.t) (image : Element.t)
    (lists : list ScrapedImage.t * list ScrapedImage.t)
    : M (list ScrapedImage.t * list ScrapedImage.t) :=
  (let '(all_images, meaningful_images) := lists in
   image_data <- lift (is_meaningful_image image page) ;;
   match image_data with
   | None => ret (all_images, meaningful_images)      (* continue *)
   | Some image_data =>
       if ScrapedImage.is_meaningful image_data then
         screenshot_path <-
           save_image_screenshot page image_data
             (List.length meaningful_images) ;;
         let image_data :=
           if truthy screenshot_path
           then ScrapedImage.set_screenshot_path screenshot_path image_data
           else image_data in
         ret (all_images ++ [image_data], meaningful_images ++ [image_data])
       else ret (all_images ++ [image_data], meaningful_images)
   end)%M.

Definition extract_images (context : context) (url : string) : M extracted :=
  (call NewPage (Ok tt) ;;
   let page := web w url in
   try_finally
     (try_except
        (call (Goto url (Some 30000)) (Page.goto page) ;;
         call (WaitForLoadState "load") (Page.wait_for_load_state page "load") ;;
         images <- lift (Page.query_selector_all page "img") ;;
         lists <- for_enumerate (fun _ => classify_one page) 0 images ([], []) ;;
         let '(all_images, meaningful_images) := lists in
         svgs <- extract_svgs page ;;
         ret (Triple meaningful_images all_images svgs))
        (fun _ => ret EmptyList))
     (call ClosePage (Page.close page)))%M.

(* ------------------------------------------------------------------ *)
(** ** The crawl *)

Record aggregate : Type := {
  all_meaningful_images : list ScrapedImage.t;
  all_images : list ScrapedImage.t;
  all_svgs : list ScrapedSVG.t
}.

(** [meaningful_images, images, svgs = ...]: unpacking into three names. *)
Definition unpack3 (r : extracted)
    : M (list ScrapedImage.t * list ScrapedImage.t * list ScrapedSVG.t) :=
  match r with
  | Triple meaningful_images images svgs => ret (meaningful_images, images, svgs)
  | EmptyList => raise ValueError   (* not enough values to unpack *)
  end.

(** [for i, link in enumerate(links): if i < 10: ... else: break] *)
Fixpoint crawl_loop (context : context) (i : nat) (links : list string)
    (acc : aggregate) : M aggregate :=
  match links with
  | [] => ret acc
  | link :: rest =>
      if Nat.ltb i 10 then
        (r <- extract_images context link ;;
         lists <- unpack3 r ;;
         let '(meaningful_images, images, svgs) := lists in
         let acc :=
           {| all_meaningful_images := all_meaningful_images acc ++ meaningful_images;
              all_images := all_images acc ++ images;
              all_svgs := all_svgs acc ++ svgs |} in
         call (Sleep 1) (Ok tt) ;;
         crawl_loop context (S i) rest acc)%M
      else ret acc       (* break *)
  end.

Definition crawl_links (links : list string) : M (list ScrapedImage.t) :=
  try_finally
    (call (Launch (HEADLESS cfg) (TIMEOUT cfg)) (Ok tt) ;;
     call (NewContext (Some (AUTH_STATE_PATH cfg))) (Ok tt) ;;
     let context := Context (Some (AUTH_STATE_PATH cfg)) in
     call (Makedirs (SCREENSHOT_DIR cfg)) (Ok tt) ;;
     acc <- crawl_loop context 0 links
              {| all_meaningful_images := []; all_images := []; all_svgs := [] |} ;;
     call (DumpImages (MEANINGFUL_IMAGE_FILE cfg) (all_meaningful_images acc)) (Ok tt) ;;
     call (DumpImages (ALL_IMAGES_FILE cfg) (all_images acc)) (Ok tt) ;;
     call (DumpSVGs (SVGS_FILE cfg) (all_svgs acc)) (Ok tt) ;;
     ret (all_meaningful_images acc))%M
    (call CloseBrowser (Ok tt)).

(* ------------------------------------------------------------------ *)
(** ** Session cache *)

(** The selectors of the login form: [input[name="username"]],
    [input[name="password"]] and [button[type="button"]]. *)
Definition quoted (s : string) : string :=
  (String (ascii_of_nat 34) s ++ String (ascii_of_nat 34) EmptyString)%string.
Definition username_selector : string :=
  ("input[name=" ++ quoted "username" ++ "]")%string.
Definition password_selector : string :=
  ("input[name=" ++ quoted "password" ++ "]")%string.
Definition submit_selector : string :=
  ("button[type=" ++ quoted "button" ++ "]")%string.

(** [file_age < AUTH_MAX_AGE], with
    [file_age = time.time() - os.path.getmtime(AUTH_STATE_PATH)].
    Times are rationals (every finite float is one) and the difference is
    exact; rounding the difference to a float is monotone and leaves the
    integer limit fixed, so it never takes an age at or above the limit
    below it. *)
Definition auth_state_valid : bool :=
  match auth_state_mtime w with
  | Some mtime =>
      let file_age := (now w - mtime)%Q in
      if Qltb file_age (inject_Z (AUTH_MAX_AGE cfg)) then true else false
  | None => false
  end.

(** The login flow: everything after the comment
    [# If we get here, we need to authenticate]. *)
Definition fresh_login : M context :=
  (call (NewContext None) (Ok tt) ;;
   let context := Context None in
   call NewPage (Ok tt) ;;
   let page := web w (AUTHENTICATION_URL cfg) in
   call (Goto (AUTHENTICATION_URL cfg) None) (Page.goto page) ;;
   try_except
     (call (Fill username_selector (USERNAME cfg))
           (Page.fill page username_selector (USERNAME cfg)) ;;
      call (Fill password_selector (PASSWORD cfg))
           (Page.fill page password_selector (PASSWORD cfg)) ;;
      call (Click submit_selector) (Page.click page submit_selector) ;;
      call (WaitForLoadState "networkidle")
           (Page.wait_for_load_state page "networkidle") ;;
      call (Sleep 2) (Ok tt) ;;
      call (StorageState (AUTH_STATE_PATH cfg)) (storage_state w) ;;
      call ClosePage (Page.close page) ;;
      ret context)
     (fun e => call CloseBrowser (Ok tt) ;; raise e))%M.

(** The cached session: seed a context with the saved state and test it
    on the main page.  [Some context] is the early [return context]. *)
Definition cached_session : M (option context) :=
  (call (NewContext (Some (AUTH_STATE_PATH cfg))) (Ok tt) ;;
   let context := Context (Some (AUTH_STATE_PATH cfg)) in
   call NewPage (Ok tt) ;;
   let page := web w (URL cfg) in
   call (Goto (URL cfg) None) (Page.goto page) ;;
   login_button <- lift (Page.login_button page) ;;
   let is_logged_in := negb login_button in
   call ClosePage (Page.close page) ;;
   if is_logged_in then ret (Some context) else ret None)%M.

Definition authenticate : M context :=
  (call (Launch (HEADLESS cfg) (TIMEOUT cfg)) (Ok tt) ;;
   reused <- (if auth_state_valid then cached_session else ret None) ;;
   match reused with
   | Some context => ret context
   | None => fresh_login
   end)%M.

End Scraper.

(* ================================================================== *)
(** * Invariants of the records *)

(** The verdict of a raster record is the conjunction of its three flags. *)
Definition verdict_ok (r : ScrapedImage.t) : Prop :=
  ScrapedImage.is_meaningful r = true <->
  (ScrapedImage.is_logo r = false /\
   ScrapedImage.is_large_file r = true /\
   ScrapedImage.has_image_shape r = true).

(** The raster records the script produces: the result of the classifier,
    the lists a page yields, and the list a crawl returns. *)
Inductive classified (r : ScrapedImage.t) : Prop :=
  | classified_element (image : Element.t) (page : Page.t) :
      is_meaningful_image image page = Ok (Some r) -> classified r
  | classified_page (cfg : config) (w : world) (c : context) (url : string)
      (meaningful_images all_images : list ScrapedImage.t)
      (svgs : list ScrapedSVG.t) (t : list event) :
      extract_images cfg w c url
        = (Ok (Triple meaningful_images all_images svgs), t) ->
      In r all_images \/ In r meaningful_images -> classified r
  | classified_crawl (cfg : config) (w : world) (links : list string)
      (returned : list ScrapedImage.t) (t : list event) :
      crawl_links cfg w links = (Ok returned, t) ->
      In r returned -> classified r.

(** A vector-graphic record has its markup or its locator, by [is_inline]. *)
Definition one_populated (r : ScrapedSVG.t) : Prop :=
  if ScrapedSVG.is_inline r
  then ScrapedSVG.content r <> None /\ ScrapedSVG.src r = None
  else ScrapedSVG.src r <> None /\ ScrapedSVG.content r = None.

(** The navigation of [extract_images] to the address it is given: the
    one made with the 30 s timeout. *)
Definition page_visit (ev : event) : option string :=
  match ev with
  | Goto url (Some timeout) => if timeout =? 30000 then Some url else None
  | _ => None
  end.

(** The addresses a crawl opens a page for, in order. *)
Fixpoint visited (t : list event) : list string :=
  match t with
  | [] => []
  | ev :: r =>
      match page_visit ev with
      | Some url => url :: visited r
      | None => visited r
      end
  end.

(** A computation that opens no page of the crawl. *)
Definition quiet {A : Type} (m : M A) : Prop := visited (snd m) = [].

(* ================================================================== *)
(** * Sample inputs *)

(** An element given by its attribute list. *)
Definition attributes (l : list (string * string)) (name : string)
    : result (option string) :=
  Ok (option_map snd (find (fun p => String.eqb (fst p) name) l)).

Definition mid_page : layout :=
  {| rect_top := 500; rect_bottom := 800; rect_left := 40;
     rect_width := 300; rect_height := 300;
     documentHeight := 3000; viewportHeight := 900 |}.

Definition top_left : layout :=
  {| rect_top := 10; rect_bottom := 60; rect_left := 10;
     rect_width := 120; rect_height := 50;
     documentHeight := 3000; viewportHeight := 900 |}.

Definition element_of (l : list (string * string)) (g : result layout)
    : Element.t :=
  {| Element.get_attribute := attributes l;
     Element.layout_probe := g;
     Element.outerHTML := Ok "<svg></svg>";
     Element.screenshot := Ok tt |}.

(** The image of the example scenario: 300x300, not in a zone. *)
Definition photo : Element.t :=
  element_of [("src", "https://example.org/photo.png");
              ("width", "300"); ("height", "300")] (Ok mid_page).

Definition banner : Element.t :=
  element_of [("src", "https://example.org/banner.png");
              ("width", "300"); ("height", "300")] (Ok top_left).

Definition no_src : Element.t :=
  element_of [("width", "300"); ("height", "300")] (Ok mid_page).

Definition empty_src : Element.t :=
  element_of [("src", EmptyString); ("alt", "spacer")] (Ok mid_page).

(** A page whose images answer a HEAD request with the given header. *)
Definition page_of (address : string) (loads : result unit)
    (imgs : list Element.t) (head : string -> result head_outcome) : Page.t :=
  {| Page.url := address;
     Page.goto := loads;
     Page.wait_for_load_state := fun _ => Ok tt;
     Page.query_selector_all :=
       fun selector => if String.eqb selector "img" then Ok imgs else Ok [];
     Page.query_selector := fun _ => Ok None;
     Page.head_request := head;
     Page.login_button := Ok false;
     Page.fill := fun _ _ => Ok tt;
     Page.click := fun _ => Ok tt;
     Page.screenshot := Ok tt;
     Page.close := Ok tt |}.

Definition gallery : Page.t :=
  page_of "https://example.org/" (Ok tt) [photo; no_src; banner]
    (fun _ => Ok (Response (Some "20000"))).

(** The record the classifier builds for [photo] on [gallery]. *)
Definition photo_record : ScrapedImage.t :=
  ScrapedImage.mk "https://example.org/photo.png" "https://example.org/" None
    (Some false) (Some false) false (Some (Int 20000)) true
    (Some 300) (Some 300) true true None.

(** The same layout with another box size and left offset. *)
Definition resized (g : layout) (left width height : Q) : layout :=
  {| rect_top := rect_top g; rect_bottom := rect_bottom g;
     rect_left := left; rect_width := width; rect_height := height;
     documentHeight := documentHeight g;
     viewportHeight := viewportHeight g |}.

(** A page with one vector graphic of each kind. *)
Definition drawings : Page.t :=
  {| Page.url := "https://example.org/icons";
     Page.goto := Ok tt;
     Page.wait_for_load_state := fun _ => Ok tt;
     Page.query_selector_all :=
       fun selector =>
         if String.eqb selector "svg" then
           Ok [element_of [("width", "24"); ("height", "24")] (Ok top_left)]
         else if String.eqb selector "img[src$='.svg']" then
           Ok [element_of [("src", "/logo.svg")] (Ok top_left);
               element_of [] (Ok mid_page)]
         else if String.eqb selector
                   "object[type='image/svg+xml'], embed[type='image/svg+xml']" then
           Ok [element_of [("data", "/chart.svg")] (Raise PlaywrightError)]
         else Ok [];
     Page.query_selector := fun _ => Ok None;
     Page.head_request := fun _ => Ok FetchRejected;
     Page.login_button := Ok false;
     Page.fill := fun _ _ => Ok tt;
     Page.click := fun _ => Ok tt;
     Page.screenshot := Ok tt;
     Page.close := Ok tt |}.

Definition sample_config : config :=
  {| URL := "https://example.org/";
     USERNAME := "user";
     PASSWORD := "secret";
     AUTHENTICATION_URL := "https://example.org/login";
     HEADLESS := true;
     TIMEOUT := 30000;
     SCREENSHOT_DIR := "screenshots";
     AUTH_STATE_PATH := "auth_state.json";
     AUTH_MAX_AGE_HOURS := 24;
     MEANINGFUL_IMAGE_FILE := "meaningful_images.json";
     ALL_IMAGES_FILE := "all_images.json";
     SVGS_FILE := "svgs.json" |}.

(** The records [extract_svgs] yields on [drawings]. *)
Definition inline_drawing : ScrapedSVG.t :=
  ScrapedSVG.mk "https://example.org/icons" true (Some "<svg></svg>") None
    (Some 24) (Some 24) (Some true) (Some false) true
    (Some "screenshots/inline_svg_0.png").

Definition logo_drawing : ScrapedSVG.t :=
  ScrapedSVG.mk "https://example.org/icons" false None (Some "/logo.svg")
    None None (Some true) (Some false) true
    (Some "screenshots/svg_img_0.png").

Definition chart_drawing : ScrapedSVG.t :=
  ScrapedSVG.mk "https://example.org/icons" false None (Some "/chart.svg")
    None None (Some false) (Some false) false None.

Definition drawings_svgs : list ScrapedSVG.t :=
  [inline_drawing; logo_drawing; chart_drawing].

(** A web in which one address does not load in time. *)
Definition slow_address : string := "https://example.org/slow".

Definition flaky_web (address : string) : Page.t :=
  if String.eqb address slow_address
  then page_of address (Raise TimeoutError) [] (fun _ => Ok FetchRejected)
  else page_of address (Ok tt) [photo; no_src]
         (fun _ => Ok (Response (Some "20000"))).

Definition steady_web (address : string) : Page.t :=
  page_of address (Ok tt) [photo; no_src]
    (fun _ => Ok (Response (Some "20000"))).

(** A saved session written exactly 24 hours ago. *)
Definition flaky_world : world :=
  {| web := flaky_web;
     auth_state_mtime := Some (inject_Z 1700000000);
     now := inject_Z 1700086400;
     storage_state := Ok tt |}.

Definition steady_world : world :=
  {| web := steady_web;
     auth_state_mtime := Some (inject_Z 1700000000);
     now := inject_Z 1700086400;
     storage_state := Ok tt |}.

Definition twelve_links : list string :=
  ["https://example.org/1"; "https://example.org/2"; "https://example.org/3";
   "https://example.org/4"; "https://example.org/5"; "https://example.org/6";
   "https://example.org/7"; "https://example.org/8"; "https://example.org/9";
   "https://example.org/10"; "https://example.org/11"; "https://example.org/12"].

(** Twelve addresses, the third of which does not load in time. *)
Definition twelve_links_one_slow : list string :=
  ["https://example.org/1"; "https://example.org/2"; slow_address;
   "https://example.org/4"; "https://example.org/5"; "https://example.org/6";
   "https://example.org/7"; "https://example.org/8"; "https://example.org/9";
   "https://example.org/10"; "https://example.org/11"; "https://example.org/12"].

(** A page on which the in-page evaluation itself fails (the execution
    context is gone when the probe runs). *)
Definition torn_page : Page.t :=
  page_of "https://example.org/" (Ok tt) [photo]
    (fun _ => Raise PlaywrightError).


(* ================================================================== *)
(** * The entry point *)

(** [main]: authenticate, then crawl the configured address. *)
Definition main (cfg : config) (w : world) : M (list ScrapedImage.t) :=
  (authenticate cfg w ;; crawl_links cfg w [URL cfg])%M.

(* ================================================================== *)
(** * Observations on traces and records *)

(** A computation none of whose calls satisfies [p]. *)
Definition never {A : Type} (p : event -> bool) (m : M A) : Prop :=
  filter p (snd m) = [].

Definition is_dump (ev : event) : bool :=
  match ev with
  | DumpImages _ _ | DumpSVGs _ _ => true
  | _ => false
  end.

(** The calls of a login: form filling, clicking, saving the state. *)
Definition is_login_call (ev : event) : bool :=
  match ev with
  | Fill _ _ | Click _ | StorageState _ | NewContext None => true
  | _ => false
  end.

(** The calls that open or drive a secondary page. *)
Definition is_page_call (ev : event) : bool :=
  match ev with
  | NewPage | Goto _ _ | PageScreenshot _ | ClosePage => true
  | _ => false
  end.

Definition is_sleep (ev : event) : bool :=
  match ev with
  | Sleep _ => true
  | _ => false
  end.

(** The characters a screenshot file name may contain. *)
Definition filename_char (c : ascii) : bool :=
  (py_isalnum_char c || contains_char c "._-")%bool.

(** The locator of an image element when it has one that is not empty. *)
Definition locator (image : Element.t) : list string :=
  match Element.get_attribute image "src" with
  | Ok (Some (String c s)) => [String c s]
  | _ => []
  end.

(** What a page contributes to the aggregate of a crawl. *)
Definition page_lists (r : result extracted)
    : list ScrapedImage.t * list ScrapedImage.t * list ScrapedSVG.t :=
  match r with
  | Ok (Triple meaningful_images images svgs) => (meaningful_images, images, svgs)
  | _ => ([], [], [])
  end.

(** The dimensions of a vector-graphic record are not negative. *)
Definition dimensions_ok (r : ScrapedSVG.t) : Prop :=
  (forall n, ScrapedSVG.width r = Some n -> 0 <= n) /\
  (forall n, ScrapedSVG.height r = Some n -> 0 <= n).

(** The attribute value made of the single character SUPERSCRIPT TWO. *)
Definition superscript_two : string := String (ascii_of_nat 178) EmptyString.

(** An inline vector graphic whose width is that value. *)
Definition squared_svg : Element.t :=
  element_of [("width", superscript_two); ("height", "24")] (Ok top_left).

(** A page on which an image can be found again by its locator. *)
Definition album : Page.t :=
  {| Page.url := "https://example.org/album";
     Page.goto := Ok tt;
     Page.wait_for_load_state := fun _ => Ok tt;
     Page.query_selector_all :=
       fun selector => if String.eqb selector "img" then Ok [photo] else Ok [];
     Page.query_selector := fun _ => Ok (Some photo);
     Page.head_request := fun _ => Ok (Response (Some "20000"));
     Page.login_button := Ok false;
     Page.fill := fun _ _ => Ok tt;
     Page.click := fun _ => Ok tt;
     Page.screenshot := Ok tt;
     Page.close := Ok tt |}.

(** A record whose locator is relative to its page. *)
Definition relative_record : ScrapedImage.t :=
  ScrapedImage.init "/img/photo.png" "https://example.org/" None.

Definition is_new_context (ev : event) : bool :=
  match ev with
  | NewContext _ => true
  | _ => false
  end.

(** The lists a crawl gathers from the links it processes. *)
Definition gathered (cfg : config) (w : world) (links : list string)
    : list ScrapedImage.t * list ScrapedImage.t * list ScrapedSVG.t :=
  let c := Context (Some (AUTH_STATE_PATH cfg)) in
  (flat_map (fun link => fst (fst (page_lists (fst (extract_images cfg w c link)))))
     links,
   flat_map (fun link => snd (fst (page_lists (fst (extract_images cfg w c link)))))
     links,
   flat_map (fun link => snd (page_lists (fst (extract_images cfg w c link))))
     links).

(** A world whose saved session is one hour old and still logged in. *)
Definition fresh_session_world : world :=
  {| web := steady_web;
     auth_state_mtime := Some (inject_Z 1700082800);
     now := inject_Z 1700086400;
     storage_state := Ok tt |}.

(** The same, on a site that shows its login button again. *)
Definition logged_out_web (address : string) : Page.t :=
  {| Page.url := address;
     Page.goto := Ok tt;
     Page.wait_for_load_state := fun _ => Ok tt;
     Page.query_selector_all := fun _ => Ok [];
     Page.query_selector := fun _ => Ok None;
     Page.head_request := fun _ => Ok FetchRejected;
     Page.login_button := Ok true;
     Page.fill := fun _ _ => Ok tt;
     Page.click := fun _ => Ok tt;
     Page.screenshot := Ok tt;
     Page.close := Ok tt |}.

Definition logged_out_world : world :=
  {| web := logged_out_web;
     auth_state_mtime := Some (inject_Z 1700082800);
     now := inject_Z 1700086400;
     storage_state := Ok tt |}.

(** The same age, on a site that does not answer. *)
Definition unreachable_world : world :=
  {| web := fun address =>
              page_of address (Raise TimeoutError) [] (fun _ => Ok FetchRejected);
     auth_state_mtime := Some (inject_Z 1700082800);
     now := inject_Z 1700086400;
     storage_state := Ok tt |}.

(** A first run: no saved session. *)
Definition first_run_world : world :=
  {| web := steady_web;
     auth_state_mtime := None;
     now := inject_Z 1700086400;
     storage_state := Ok tt |}.

(** A login form without the submit button. *)
Definition broken_form_web (address : string) : Page.t :=
  {| Page.url := address;
     Page.goto := Ok tt;
     Page.wait_for_load_state := fun _ => Ok tt;
     Page.query_selector_all := fun _ => Ok [];
     Page.query_selector := fun _ => Ok None;
     Page.head_request := fun _ => Ok FetchRejected;
     Page.login_button := Ok true;
     Page.fill := fun _ _ => Ok tt;
     Page.click := fun _ => Raise TimeoutError;
     Page.screenshot := Ok tt;
     Page.close := Ok tt |}.

Definition broken_form_world : world :=
  {| web := broken_form_web;
     auth_state_mtime := None;
     now := inject_Z 1700086400;
     storage_state := Ok tt |}.

(** The [photo] element once it is detached: its geometry cannot be
    evaluated any more. *)
Definition detached_photo : Element.t :=
  element_of [("src", "https://example.org/photo.png");
              ("width", "300"); ("height", "300")] (Raise PlaywrightError).

Definition detached_record : ScrapedImage.t :=
  ScrapedImage.mk "https://example.org/photo.png" "https://example.org/" None
    None None false (Some (Int 20000)) true
    (Some 300) (Some 300) true true None.

(** The record of [photo] on [torn_page], where the size is unknown. *)
Definition unprobed_record : ScrapedImage.t :=
  ScrapedImage.mk "https://example.org/photo.png" "https://example.org/" None
    (Some false) (Some false) false None false
    (Some 300) (Some 300) true false None.

(** The context of a crawl under [sample_config]. *)
Definition saved_context : context := Context (Some "auth_state.json").

(** The record of [photo] after its screenshot was taken. *)
Definition photo_shot : ScrapedImage.t :=
  ScrapedImage.set_screenshot_path (Some "screenshots/0_photo.png") photo_record.

(** The calls [extract_images] makes on the front page of [steady_web]. *)
Definition front_page_trace : list event :=
  Eval vm_compute in
    snd (extract_images sample_config steady_world saved_context
           "https://example.org/").

(** The elements of [drawings], by query. *)
Definition drawings_inline : list Element.t :=
  [element_of [("width", "24"); ("height", "24")] (Ok top_left)].
Definition drawings_images : list Element.t :=
  [element_of [("src", "/logo.svg")] (Ok top_left);
   element_of [] (Ok mid_page)].
Definition drawings_objects : list Element.t :=
  [element_of [("data", "/chart.svg")] (Raise PlaywrightError)].

Definition drawings_trace : list event :=
  [Makedirs "screenshots"; ElementScreenshot "screenshots/inline_svg_0.png";
   Makedirs "screenshots"; ElementScreenshot "screenshots/svg_img_0.png"].

(** A crawl of two pages of [steady_web]. *)
Definition two_links : list string :=
  ["https://example.org/1"; "https://example.org/2"].

Definition two_links_returned : list ScrapedImage.t :=
  Eval vm_compute in
    match fst (crawl_links sample_config steady_world two_links) with
    | Ok returned => returned
    | Raise _ => []
    end.

Definition two_links_trace : list event :=
  Eval vm_compute in snd (crawl_links sample_config steady_world two_links).

(* ================================================================== *)
(** * Properties of the classifier *)

Lemma Qltb_lt (x y : Q) : Qltb x y = true <-> (x < y)%Q.
Proof.
  unfold Qltb. rewrite negb_true_iff.
  split; intros H.
  - apply Qnot_le_lt. intros Hle.
    apply Qle_bool_iff in Hle. congruence.
  - destruct (Qle_bool y x) eqn:E; [|reflexivity].
    apply Qle_bool_iff in E. exfalso. exact (Qlt_not_le _ _ H E).
Qed.

Lemma Qltb_ge (x y : Q) : Qltb x y = false <-> (y <= x)%Q.
Proof.
  unfold Qltb. rewrite negb_false_iff. apply Qle_bool_iff.
Qed.

Lemma truthy_true (o : option string) :
  truthy o = true <-> exists c s, o = Some (String c s).
Proof.
  split.
  - destruct o as [[|c s]|]; simpl; try discriminate. eauto.
  - intros (c & s & ->). reflexivity.
Qed.

(** The geometry prober never raises, and its third component is the
    disjunction of the first two when the probe succeeds. *)
Lemma is_header_footer_logo_ok (image : Element.t) (g : layout) :
  Element.layout_probe image = Ok g ->
  is_header_footer_logo image =
    (Some (isTopSection (position_script g)),
     Some (isBottomSection (position_script g)),
     (isTopSection (position_script g)
      || isBottomSection (position_script g))%bool).
Proof.
  intros Hg. unfold is_header_footer_logo. rewrite Hg.
  destruct (isTopSection (position_script g)),
           (isBottomSection (position_script g)); reflexivity.
Qed.

Lemma is_header_footer_logo_failed (image : Element.t) (e : exn) :
  Element.layout_probe image = Raise e ->
  is_header_footer_logo image = (None, None, false).
Proof.
  intros Hg. unfold is_header_footer_logo. now rewrite Hg.
Qed.

(** When the declared dimensions are accepted, both attributes are
    present, parse, and exceed 100; the parsed values are returned. *)
Lemma check_image_size_true (image : Element.t) (width height : option Z) :
  check_image_size image = Ok (width, height, true) <->
  exists sw sh a b,
    Element.get_attribute image "width" = Ok (Some sw) /\
    Element.get_attribute image "height" = Ok (Some sh) /\
    py_int sw = Ok a /\ py_int sh = Ok b /\
    100 < a /\ 100 < b /\ width = Some a /\ height = Some b.
Proof.
  unfold check_image_size. split.
  - destruct (Element.get_attribute image "width") as [[[|c s]|]|e] eqn:Ew;
      simpl; try discriminate;
      destruct (Element.get_attribute image "height") as [[[|c' s']|]|e'] eqn:Eh;
      simpl; try discriminate.
    destruct (py_int (String c s)) as [a|ea] eqn:Ea; simpl;
      [|destruct (is_value_or_type_error ea); discriminate].
    destruct (py_int (String c' s')) as [b|eb] eqn:Eb; simpl;
      [|destruct (is_value_or_type_error eb); discriminate].
    destruct (100 <? a) eqn:La; simpl; try discriminate.
    destruct (100 <? b) eqn:Lb; simpl; try discriminate.
    intros H. inversion H; subst.
    apply Z.ltb_lt in La, Lb.
    exists (String c s), (String c' s'), a, b. repeat split; auto.
  - intros (sw & sh & a & b & Ew & Eh & Ea & Eb & La & Lb & -> & ->).
    rewrite Ew. simpl. rewrite Eh. simpl.
    destruct sw as [|c s]; [vm_compute in Ea; discriminate|].
    destruct sh as [|c' s']; [vm_compute in Eb; discriminate|].
    simpl. rewrite Ea. simpl. rewrite Eb. simpl.
    apply Z.ltb_lt in La, Lb. rewrite La, Lb. reflexivity.
Qed.

(** When they are rejected, no dimension is reported. *)
Lemma check_image_size_false (image : Element.t) (width height : option Z) :
  check_image_size image = Ok (width, height, false) ->
  width = None /\ height = None.
Proof.
  unfold check_image_size.
  destruct (Element.get_attribute image "width") as [[[|c s]|]|e];
    simpl; try discriminate;
    destruct (Element.get_attribute image "height") as [[[|c' s']|]|e'];
    simpl; try discriminate;
    try (intros H; inversion H; auto; fail).
  destruct (py_int (String c s)) as [a|ea]; simpl;
    [|destruct (is_value_or_type_error ea); simpl;
      intros H; inversion H; auto].
  destruct (py_int (String c' s')) as [b|eb]; simpl;
    [|destruct (is_value_or_type_error eb); simpl;
      intros H; inversion H; auto].
  destruct ((100 <? a) && (100 <? b))%bool; intros H; inversion H; auto.
Qed.

(** The record [is_meaningful_image] returns, field by field. *)
Lemma is_meaningful_image_inv (image : Element.t) (page : Page.t)
    (r : ScrapedImage.t) :
  is_meaningful_image image page = Ok (Some r) ->
  exists src alt width height has_image_shape,
    Element.get_attribute image "src" = Ok (Some src) /\
    src <> EmptyString /\
    Element.get_attribute image "alt" = Ok alt /\
    check_image_size image = Ok (width, height, has_image_shape) /\
    r = ScrapedImage.mk src (Page.url page) alt
          (fst (fst (is_header_footer_logo image)))
          (snd (fst (is_header_footer_logo image)))
          (snd (is_header_footer_logo image))
          (fst (check_file_image_size page src))
          (snd (check_file_image_size page src))
          width height has_image_shape
          (negb (snd (is_header_footer_logo image))
           && snd (check_file_image_size page src)
           && has_image_shape)%bool
          None.
Proof.
  unfold is_meaningful_image.
  destruct (Element.get_attribute image "src") as [[[|c s]|]|e];
    simpl; try discriminate.
  destruct (Element.get_attribute image "alt") as [alt|e]; simpl;
    try discriminate.
  destruct (is_header_footer_logo image) as [[is_header is_footer] is_logo].
  destruct (check_file_image_size page (String c s))
    as [file_size is_large_file] eqn:Ef.
  destruct (check_image_size image) as [[[width height] has_image_shape]|e];
    simpl; try discriminate.
  intros H. inversion H; subst; clear H.
  exists (String c s), alt, width, height, has_image_shape.
  rewrite Ef. repeat split; auto. discriminate.
Qed.

(* ------------------------------------------------------------------ *)
(** ** Declared dimensions *)

(** C5: for a classified image, [has_image_shape] is true if and only if
    the [width] and [height] attributes are both present, both parse as
    integers and both exceed 100 (the record then carries the parsed
    values); in every other case it is false and the record's width and
    height are both [None]. *)
Theorem has_image_shape_iff_declared_dimensions
    (image : Element.t) (page : Page.t) (r : ScrapedImage.t) :
  is_meaningful_image image page = Ok (Some r) ->
  (ScrapedImage.has_image_shape r = true <->
   exists sw sh a b,
     Element.get_attribute image "width" = Ok (Some sw) /\
     Element.get_attribute image "height" = Ok (Some sh) /\
     py_int sw = Ok a /\ py_int sh = Ok b /\ 100 < a /\ 100 < b) /\
  (ScrapedImage.has_image_shape r = true ->
   exists a b, ScrapedImage.width r = Some a /\ ScrapedImage.height r = Some b
               /\ 100 < a /\ 100 < b) /\
  (ScrapedImage.has_image_shape r = false ->
   ScrapedImage.width r = None /\ ScrapedImage.height r = None).
Proof.
  intros H.
  destruct (is_meaningful_image_inv _ _ _ H)
    as (src & alt & width & height & shape & _ & _ & _ & Hsize & ->).
  simpl. split; [split|split].
  - intros ->.
    apply check_image_size_true in Hsize.
    destruct Hsize as (sw & sh & a & b & ? & ? & ? & ? & ? & ? & _).
    exists sw, sh, a, b. repeat split; assumption.
  - intros (sw & sh & a & b & Ew & Eh & Ea & Eb & La & Lb).
    assert (Ht : check_image_size image = Ok (Some a, Some b, true)).
    { apply check_image_size_true. exists sw, sh, a, b.
      repeat split; assumption || reflexivity. }
    rewrite Ht in Hsize. now inversion Hsize.
  - intros ->.
    apply check_image_size_true in Hsize.
    destruct Hsize as (sw & sh & a & b & _ & _ & _ & _ & ? & ? & -> & ->).
    exists a, b. repeat split; assumption.
  - intros ->. now apply check_image_size_false in Hsize.
Qed.

Lemma has_image_shape_iff_declared_dimensions_witness :
  is_meaningful_image photo gallery = Ok (Some photo_record) /\
  ((ScrapedImage.has_image_shape photo_record = true <->
    exists sw sh a b,
      Element.get_attribute photo "width" = Ok (Some sw) /\
      Element.get_attribute photo "height" = Ok (Some sh) /\
      py_int sw = Ok a /\ py_int sh = Ok b /\ 100 < a /\ 100 < b) /\
   (ScrapedImage.has_image_shape photo_record = true ->
    exists a b, ScrapedImage.width photo_record = Some a
                /\ ScrapedImage.height photo_record = Some b
                /\ 100 < a /\ 100 < b) /\
   (ScrapedImage.has_image_shape photo_record = false ->
    ScrapedImage.width photo_record = None
    /\ ScrapedImage.height photo_record = None)).
Proof.
  split.
  - vm_compute. reflexivity.
  - apply (has_image_shape_iff_declared_dimensions photo gallery photo_record).
    vm_compute. reflexivity.
Defined.

(* ------------------------------------------------------------------ *)
(** ** Byte size *)

(** What the in-page script answers. *)
Lemma head_script_absent : head_script (Response None) = Int 0.
Proof. reflexivity. Qed.

Lemma head_script_empty : head_script (Response (Some EmptyString)) = Int 0.
Proof. reflexivity. Qed.

Lemma head_script_rejected : head_script FetchRejected = Int 0.
Proof. reflexivity. Qed.

(** C6: the second component of the size probe is true if and only if the
    probed size is a number strictly greater than 10240; a size of
    exactly 10240 yields false. *)
Theorem is_large_file_iff_over_10240
    (page : Page.t) (src : string) (size : option number) (is_large_file : bool) :
  check_file_image_size page src = (size, is_large_file) ->
  (is_large_file = true <-> exists n, size = Some (Int n) /\ 10240 < n) /\
  (size = Some (Int 10240) -> is_large_file = false).
Proof.
  unfold check_file_image_size.
  destruct (Page.head_request page src) as [o|e]; intros H; inversion H;
    subst; clear H.
  - split.
    + split.
      * destruct (head_script o) as [n|]; simpl; try discriminate.
        intros Hn. apply Z.ltb_lt in Hn. eauto.
      * intros (n & Hn & Hlt). inversion Hn as [Hs]. rewrite Hs. simpl.
        now apply Z.ltb_lt.
    + intros Hs. inversion Hs as [Hn]. rewrite Hn. reflexivity.
  - split.
    + split; [discriminate|]. intros (n & Hn & _). discriminate.
    + discriminate.
Qed.

Lemma is_large_file_iff_over_10240_witness :
  check_file_image_size gallery "https://example.org/photo.png"
    = (Some (Int 20000), true) /\
  ((true = true <-> exists n, Some (Int 20000) = Some (Int n) /\ 10240 < n) /\
   (Some (Int 20000) = Some (Int 10240) -> true = false)).
Proof.
  split.
  - reflexivity.
  - apply (is_large_file_iff_over_10240 gallery "https://example.org/photo.png").
    reflexivity.
Defined.

(** The same on the record. *)
Lemma record_is_large_file (image : Element.t) (page : Page.t)
    (r : ScrapedImage.t) :
  is_meaningful_image image page = Ok (Some r) ->
  (ScrapedImage.is_large_file r = true <->
   exists n, ScrapedImage.file_size r = Some (Int n) /\ 10240 < n).
Proof.
  intros H.
  destruct (is_meaningful_image_inv _ _ _ H)
    as (src & alt & width & height & shape & _ & _ & _ & _ & ->).
  simpl.
  apply (is_large_file_iff_over_10240 page src).
  now destruct (check_file_image_size page src).
Qed.

(* ------------------------------------------------------------------ *)
(** ** Images without a resource locator *)

(** C7: when the [src] attribute of an image is absent or empty, the
    classifier returns no record, and the loop of [extract_images] leaves
    both lists as they are and makes no further call. *)
Theorem no_src_no_record (image : Element.t) (page : Page.t) :
  Element.get_attribute image "src" = Ok None \/
  Element.get_attribute image "src" = Ok (Some EmptyString) ->
  is_meaningful_image image page = Ok None /\
  forall cfg w lists, classify_one cfg w page image lists = (Ok lists, []).
Proof.
  intros H.
  assert (Hnone : is_meaningful_image image page = Ok None).
  { unfold is_meaningful_image. destruct H as [-> | ->]; reflexivity. }
  split; [exact Hnone|].
  intros cfg w [all_images meaningful_images].
  unfold classify_one. rewrite Hnone. reflexivity.
Qed.

Lemma no_src_no_record_witness :
  is_meaningful_image empty_src gallery = Ok None /\
  forall cfg w lists, classify_one cfg w gallery empty_src lists = (Ok lists, []).
Proof.
  apply (no_src_no_record empty_src gallery).
  right. reflexivity.
Defined.

(* ------------------------------------------------------------------ *)
(** ** Logo flag of raster images *)

Lemma position_script_resized (g : layout) (left width height : Q) :
  position_script (resized g left width height) = position_script g.
Proof. reflexivity. Qed.

(** C10: when the geometry probe of a raster image succeeds, the record's
    [is_header] and [is_footer] are the two zone tests and [is_logo] is
    their disjunction; the zone tests do not look at the size of the box
    or at its left offset. *)
Theorem is_logo_iff_header_or_footer
    (image : Element.t) (page : Page.t) (r : ScrapedImage.t) (g : layout) :
  Element.layout_probe image = Ok g ->
  is_meaningful_image image page = Ok (Some r) ->
  ScrapedImage.is_header r = Some (isTopSection (position_script g)) /\
  ScrapedImage.is_footer r = Some (isBottomSection (position_script g)) /\
  ScrapedImage.is_logo r =
    (isTopSection (position_script g) || isBottomSection (position_script g))%bool /\
  (isTopSection (position_script g) = true <->
     (rect_top g < viewportHeight g * (1 # 10))%Q) /\
  (isBottomSection (position_script g) = true <->
     (documentHeight g - viewportHeight g * (1 # 10) < rect_bottom g)%Q) /\
  forall left width height,
    position_script (resized g left width height) = position_script g.
Proof.
  intros Hg H.
  destruct (is_meaningful_image_inv _ _ _ H)
    as (src & alt & width & height & shape & _ & _ & _ & _ & ->).
  rewrite (is_header_footer_logo_ok image g Hg). simpl.
  repeat split; try apply Qltb_lt; auto.
Qed.

Lemma is_logo_iff_header_or_footer_witness :
  ScrapedImage.is_header photo_record
    = Some (isTopSection (position_script mid_page)) /\
  ScrapedImage.is_footer photo_record
    = Some (isBottomSection (position_script mid_page)) /\
  ScrapedImage.is_logo photo_record =
    (isTopSection (position_script mid_page)
     || isBottomSection (position_script mid_page))%bool /\
  (isTopSection (position_script mid_page) = true <->
     (rect_top mid_page < viewportHeight mid_page * (1 # 10))%Q) /\
  (isBottomSection (position_script mid_page) = true <->
     (documentHeight mid_page - viewportHeight mid_page * (1 # 10)
      < rect_bottom mid_page)%Q) /\
  forall left width height,
    position_script (resized mid_page left width height)
    = position_script mid_page.
Proof.
  apply (is_logo_iff_header_or_footer photo gallery photo_record mid_page).
  - reflexivity.
  - vm_compute. reflexivity.
Defined.

(* ================================================================== *)
(** * Reasoning about computations *)

Lemma bind_ok {A B : Type} (m : M A) (k : A -> M B) (b : B) (t : list event) :
  bind m k = (Ok b, t) ->
  exists a t1 t2, m = (Ok a, t1) /\ k a = (Ok b, t2) /\ t = t1 ++ t2.
Proof.
  unfold bind. destruct m as [[a|e] t1]; [|discriminate].
  destruct (k a) as [r t2] eqn:Ek. intros H. inversion H; subst.
  exists a, t1, t2. auto.
Qed.

Lemma try_except_ok {A : Type} (m : M A) (handler : exn -> M A) (a : A)
    (t : list event) :
  try_except m handler = (Ok a, t) ->
  m = (Ok a, t) \/
  exists e t1 t2, m = (Raise e, t1) /\ handler e = (Ok a, t2) /\ t = t1 ++ t2.
Proof.
  unfold try_except. destruct m as [[a'|e] t1].
  - intros H. left. exact H.
  - destruct (handler e) as [r t2] eqn:Eh. intros H. inversion H; subst.
    right. exists e, t1, t2. auto.
Qed.

Lemma try_finally_ok {A : Type} (m : M A) (cleanup : M unit) (a : A)
    (t : list event) :
  try_finally m cleanup = (Ok a, t) ->
  exists t1 t2, m = (Ok a, t1) /\ cleanup = (Ok tt, t2) /\ t = t1 ++ t2.
Proof.
  unfold try_finally. destruct m as [r t1]. destruct cleanup as [[[]|e] t2];
    intros H; inversion H; subst.
  exists t1, t2. auto.
Qed.

Lemma lift_ok {A : Type} (r : result A) (a : A) (t : list event) :
  lift r = (Ok a, t) -> r = Ok a /\ t = [].
Proof. unfold lift. intros H. inversion H. auto. Qed.

Lemma ret_ok {A : Type} (x a : A) (t : list event) :
  ret x = (Ok a, t) -> a = x /\ t = [].
Proof. unfold ret. intros H. inversion H. auto. Qed.

(** An invariant of the loop body is an invariant of the loop. *)
Lemma for_enumerate_inv {A St : Type} (P : St -> Prop)
    (body : nat -> A -> St -> M St) (l : list A) :
  (forall i x s s' t, In x l -> P s -> body i x s = (Ok s', t) -> P s') ->
  forall i s s' t, P s -> for_enumerate body i l s = (Ok s', t) -> P s'.
Proof.
  induction l as [|x l IH]; intros Hbody i s s' t Hs H.
  - simpl in H. apply ret_ok in H. destruct H as [-> _]. exact Hs.
  - simpl in H. apply bind_ok in H.
    destruct H as (s1 & t1 & t2 & H1 & H2 & _).
    apply (IH (fun i x s s' t Hx => Hbody i x s s' t (or_intror Hx))
              (S i) s1 s' t2); [|exact H2].
    apply (Hbody i x s s1 t1); [left; reflexivity | exact Hs | exact H1].
Qed.

(* ================================================================== *)
(** * Records carried through a page and a crawl *)

Section Carried.

Variable Q : ScrapedImage.t -> Prop.
Hypothesis Q_screenshot :
  forall r p, Q r -> Q (ScrapedImage.set_screenshot_path p r).

Variable cfg : config.
Variable w : world.

Lemma classify_one_carries (page : Page.t) (image : Element.t)
    (lists lists' : list ScrapedImage.t * list ScrapedImage.t)
    (t : list event) :
  (forall r, is_meaningful_image image page = Ok (Some r) -> Q r) ->
  Forall Q (fst lists) /\ Forall Q (snd lists) ->
  classify_one cfg w page image lists = (Ok lists', t) ->
  Forall Q (fst lists') /\ Forall Q (snd lists').
Proof.
  intros Hq [Ha Hm]. destruct lists as [all_images meaningful_images].
  simpl in Ha, Hm. unfold classify_one. intros H.
  apply bind_ok in H. destruct H as (d & t1 & t2 & H1 & H2 & _).
  apply lift_ok in H1. destruct H1 as [H1 _].
  destruct d as [image_data|].
  - specialize (Hq image_data H1).
    destruct (ScrapedImage.is_meaningful image_data).
    + apply bind_ok in H2. destruct H2 as (p & t3 & t4 & _ & H3 & _).
      apply ret_ok in H3. destruct H3 as [-> _]. simpl.
      assert (Q (if truthy p
                 then ScrapedImage.set_screenshot_path p image_data
                 else image_data)) by (destruct (truthy p); auto).
      split; apply Forall_app; auto.
    + apply ret_ok in H2. destruct H2 as [-> _]. simpl.
      split; [apply Forall_app|]; auto.
  - apply ret_ok in H2. destruct H2 as [-> _]. simpl. auto.
Qed.

Lemma extract_images_carries (c : context) (url : string)
    (meaningful_images all_images : list ScrapedImage.t)
    (svgs : list ScrapedSVG.t) (t : list event) :
  (forall image r,
     is_meaningful_image image (web w url) = Ok (Some r) -> Q r) ->
  extract_images cfg w c url
    = (Ok (Triple meaningful_images all_images svgs), t) ->
  Forall Q all_images /\ Forall Q meaningful_images.
Proof.
  intros Hq H. unfold extract_images in H.
  apply bind_ok in H. destruct H as (u & t1 & t2 & _ & H & _).
  apply try_finally_ok in H. destruct H as (t3 & t4 & H & _ & _).
  apply try_except_ok in H.
  destruct H as [H | (e & t5 & t6 & _ & H & _)];
    [|apply ret_ok in H; destruct H; discriminate].
  apply bind_ok in H. destruct H as (u1 & t5 & t6 & _ & H & _).
  apply bind_ok in H. destruct H as (u2 & t7 & t8 & _ & H & _).
  apply bind_ok in H. destruct H as (images & t9 & t10 & _ & H & _).
  apply bind_ok in H. destruct H as (lists & t11 & t12 & Hloop & H & _).
  destruct lists as [a m].
  apply bind_ok in H. destruct H as (s & t13 & t14 & _ & H & _).
  apply ret_ok in H. destruct H as [H _]. inversion H; subst.
  apply (for_enumerate_inv
           (fun lists => Forall Q (fst lists) /\ Forall Q (snd lists)))
    in Hloop; simpl in *; auto.
  intros i x s0 s' t0 _ Hs Hb.
  apply (classify_one_carries (web w url) x s0 s' t0); auto.
  intros r. apply Hq.
Qed.

Lemma crawl_loop_cons (c : context) (i : nat) (link : string)
    (rest : list string) (acc : aggregate) :
  crawl_loop cfg w c i (link :: rest) acc =
  if Nat.ltb i 10 then
    (r <- extract_images cfg w c link ;;
     lists <- unpack3 r ;;
     let '(meaningful_images, images, svgs) := lists in
     let acc :=
       {| all_meaningful_images := all_meaningful_images acc ++ meaningful_images;
          all_images := all_images acc ++ images;
          all_svgs := all_svgs acc ++ svgs |} in
     call (Sleep 1) (Ok tt) ;;
     crawl_loop cfg w c (S i) rest acc)%M
  else ret acc.
Proof. reflexivity. Qed.

Lemma crawl_loop_carries (c : context) (links : list string) :
  (forall url image r,
     is_meaningful_image image (web w url) = Ok (Some r) -> Q r) ->
  forall i acc acc' t,
    Forall Q (all_meaningful_images acc) /\ Forall Q (all_images acc) ->
    crawl_loop cfg w c i links acc = (Ok acc', t) ->
    Forall Q (all_meaningful_images acc') /\ Forall Q (all_images acc').
Proof.
  intros Hq. induction links as [|link rest IH]; intros i acc acc' t Hacc H.
  - simpl in H. apply ret_ok in H. destruct H as [-> _]. exact Hacc.
  - rewrite crawl_loop_cons in H. destruct (Nat.ltb i 10).
    + apply bind_ok in H. destruct H as (r & t1 & t2 & Hext & H & _).
      apply bind_ok in H. destruct H as (lists & t3 & t4 & Hun & H & _).
      destruct r as [m a s|]; simpl in Hun;
        [|unfold raise in Hun; discriminate].
      apply ret_ok in Hun. destruct Hun as [-> _].
      apply bind_ok in H. destruct H as (u & t5 & t6 & _ & H & _).
      apply extract_images_carries in Hext; [|apply Hq].
      apply IH in H; [exact H|]. simpl.
      destruct Hacc, Hext. split; apply Forall_app; auto.
    + apply ret_ok in H. destruct H as [-> _]. exact Hacc.
Qed.

Lemma crawl_links_carries (links : list string)
    (returned : list ScrapedImage.t) (t : list event) :
  (forall url image r,
     is_meaningful_image image (web w url) = Ok (Some r) -> Q r) ->
  crawl_links cfg w links = (Ok returned, t) ->
  Forall Q returned.
Proof.
  intros Hq H. unfold crawl_links in H.
  apply try_finally_ok in H. destruct H as (t1 & t2 & H & _ & _).
  apply bind_ok in H. destruct H as (u1 & t3 & t4 & _ & H & _).
  apply bind_ok in H. destruct H as (u2 & t5 & t6 & _ & H & _).
  apply bind_ok in H. destruct H as (u3 & t7 & t8 & _ & H & _).
  apply bind_ok in H. destruct H as (acc & t9 & t10 & Hloop & H & _).
  apply bind_ok in H. destruct H as (u4 & t11 & t12 & _ & H & _).
  apply bind_ok in H. destruct H as (u5 & t13 & t14 & _ & H & _).
  apply bind_ok in H. destruct H as (u6 & t15 & t16 & _ & H & _).
  apply ret_ok in H. destruct H as [-> _].
  apply crawl_loop_carries in Hloop; [apply Hloop | exact Hq | simpl; auto].
Qed.

End Carried.

(* ------------------------------------------------------------------ *)
(** ** The verdict *)

Lemma classifier_verdict (image : Element.t) (page : Page.t)
    (r : ScrapedImage.t) :
  is_meaningful_image image page = Ok (Some r) -> verdict_ok r.
Proof.
  intros H.
  destruct (is_meaningful_image_inv _ _ _ H)
    as (src & alt & width & height & shape & _ & _ & _ & _ & ->).
  unfold verdict_ok. simpl.
  rewrite !andb_true_iff, negb_true_iff. tauto.
Qed.

Lemma verdict_ok_screenshot (r : ScrapedImage.t) (p : option string) :
  verdict_ok r -> verdict_ok (ScrapedImage.set_screenshot_path p r).
Proof. unfold verdict_ok. simpl. auto. Qed.

(** C1: in every raster record the script produces (returned by the
    classifier, listed for a page, or returned by a crawl),
    [is_meaningful] is true if and only if [is_logo] is false,
    [is_large_file] is true and [has_image_shape] is true. *)
Theorem is_meaningful_iff_three_flags (r : ScrapedImage.t) :
  classified r ->
  (ScrapedImage.is_meaningful r = true <->
   ScrapedImage.is_logo r = false /\
   ScrapedImage.is_large_file r = true /\
   ScrapedImage.has_image_shape r = true).
Proof.
  intros [image page H | cfg w c url m a s t H Hin | cfg w links l t H Hin].
  - exact (classifier_verdict image page r H).
  - apply (extract_images_carries verdict_ok verdict_ok_screenshot) in H.
    + destruct H as [Ha Hm]. rewrite Forall_forall in Ha, Hm.
      destruct Hin as [Hin|Hin]; [exact (Ha r Hin) | exact (Hm r Hin)].
    + intros image r0. apply classifier_verdict.
  - apply (crawl_links_carries verdict_ok verdict_ok_screenshot) in H.
    + rewrite Forall_forall in H. exact (H r Hin).
    + intros url image r0. apply classifier_verdict.
Qed.

Lemma is_meaningful_iff_three_flags_witness :
  ScrapedImage.is_meaningful photo_record = true <->
  ScrapedImage.is_logo photo_record = false /\
  ScrapedImage.is_large_file photo_record = true /\
  ScrapedImage.has_image_shape photo_record = true.
Proof.
  apply (is_meaningful_iff_three_flags photo_record).
  apply (classified_element photo_record photo gallery).
  vm_compute. reflexivity.
Defined.

(* ================================================================== *)
(** * Vector-graphic records *)

Lemma one_populated_screenshot (r : ScrapedSVG.t) (p : option string) :
  one_populated r -> one_populated (ScrapedSVG.set_screenshot_path p r).
Proof. unfold one_populated. simpl. auto. Qed.

(** The screenshot step of the two first branches returns the record it
    was given, with or without a path. *)
Lemma svg_screenshot_step (step1 step2 : M unit) (svg_obj r : ScrapedSVG.t)
    (path : string) (t : list event) :
  try_except
    (step1 ;; step2 ;;
     ret (ScrapedSVG.set_screenshot_path (Some path) svg_obj))%M
    (fun _ => ret svg_obj) = (Ok r, t) ->
  r = svg_obj \/ r = ScrapedSVG.set_screenshot_path (Some path) svg_obj.
Proof.
  intros H. apply try_except_ok in H.
  destruct H as [H | (e & t1 & t2 & _ & H & _)].
  - apply bind_ok in H. destruct H as (u & t1 & t2 & _ & H & _).
    apply bind_ok in H. destruct H as (u' & t3 & t4 & _ & H & _).
    apply ret_ok in H. destruct H as [-> _]. right. reflexivity.
  - apply ret_ok in H. destruct H as [-> _]. left. reflexivity.
Qed.

Section Svgs.

Variable cfg : config.
Variable page : Page.t.

Lemma inline_svg_populated (i : nat) (svg : Element.t)
    (svgs svgs' : list ScrapedSVG.t) (t : list event) :
  Forall one_populated svgs ->
  inline_svg cfg page i svg svgs = (Ok svgs', t) ->
  Forall one_populated svgs'.
Proof.
  intros Hs H. unfold inline_svg in H. apply try_except_ok in H.
  destruct H as [H | (e & t1 & t2 & _ & H & _)];
    [|apply ret_ok in H; destruct H as [-> _]; exact Hs].
  apply bind_ok in H. destruct H as (w0 & t1 & t2 & _ & H & _).
  apply bind_ok in H. destruct H as (h0 & t3 & t4 & _ & H & _).
  apply bind_ok in H. destruct H as (width & t5 & t6 & _ & H & _).
  apply bind_ok in H. destruct H as (height & t7 & t8 & _ & H & _).
  apply bind_ok in H. destruct H as (content & t9 & t10 & _ & H & _).
  apply bind_ok in H. destruct H as (g & t11 & t12 & _ & H & _).
  apply bind_ok in H. destruct H as (svg_obj & t13 & t14 & Hshot & H & _).
  apply ret_ok in H. destruct H as [-> _].
  apply Forall_app. split; [exact Hs|]. constructor; [|constructor].
  assert (Hobj : forall o,
            o = ScrapedSVG.mk (Page.url page) true (Some content) None
                  width height (Some (isHeader (svg_position_script g)))
                  (Some (isFooter (svg_position_script g)))
                  (isLogo (svg_position_script g)) None ->
            one_populated o).
  { intros o ->. unfold one_populated. simpl. split; [discriminate|reflexivity]. }
  apply svg_screenshot_step in Hshot.
  destruct Hshot as [-> | ->];
    [|apply one_populated_screenshot]; apply Hobj; reflexivity.
Qed.

Lemma svg_image_populated (i : nat) (img : Element.t)
    (svgs svgs' : list ScrapedSVG.t) (t : list event) :
  Forall one_populated svgs ->
  svg_image cfg page i img svgs = (Ok svgs', t) ->
  Forall one_populated svgs'.
Proof.
  intros Hs H. unfold svg_image in H. apply try_except_ok in H.
  destruct H as [H | (e & t1 & t2 & _ & H & _)];
    [|apply ret_ok in H; destruct H as [-> _]; exact Hs].
  apply bind_ok in H. destruct H as (src & t1 & t2 & _ & H & _).
  destruct (truthy src) eqn:Hsrc; cbn [negb] in H;
    [|apply ret_ok in H; destruct H as [-> _]; exact Hs].
  apply bind_ok in H. destruct H as (w0 & t3 & t4 & _ & H & _).
  apply bind_ok in H. destruct H as (h0 & t5 & t6 & _ & H & _).
  apply bind_ok in H. destruct H as (width & t7 & t8 & _ & H & _).
  apply bind_ok in H. destruct H as (height & t9 & t10 & _ & H & _).
  destruct (is_header_footer_logo img) as [[is_header is_footer] is_logo].
  apply bind_ok in H. destruct H as (svg_obj & t11 & t12 & Hshot & H & _).
  apply ret_ok in H. destruct H as [-> _].
  apply Forall_app. split; [exact Hs|]. constructor; [|constructor].
  assert (Hobj : forall o,
            o = ScrapedSVG.mk (Page.url page) false None src width height
                  is_header is_footer is_logo None ->
            one_populated o).
  { intros o ->. unfold one_populated. simpl. split; [|reflexivity].
    apply truthy_true in Hsrc. destruct Hsrc as (c & s & ->). discriminate. }
  apply svg_screenshot_step in Hshot.
  destruct Hshot as [-> | ->];
    [|apply one_populated_screenshot]; apply Hobj; reflexivity.
Qed.

Lemma svg_object_populated (i : nat) (obj : Element.t)
    (svgs svgs' : list ScrapedSVG.t) (t : list event) :
  Forall one_populated svgs ->
  svg_object page i obj svgs = (Ok svgs', t) ->
  Forall one_populated svgs'.
Proof.
  intros Hs H. unfold svg_object in H. apply try_except_ok in H.
  destruct H as [H | (e & t1 & t2 & _ & H & _)];
    [|apply ret_ok in H; destruct H as [-> _]; exact Hs].
  apply bind_ok in H. destruct H as (data & t1 & t2 & _ & H & _).
  apply bind_ok in H. destruct H as (src & t3 & t4 & _ & H & _).
  destruct (truthy src) eqn:Hsrc; cbn [negb] in H;
    apply ret_ok in H; destruct H as [-> _]; [|exact Hs].
  apply Forall_app. split; [exact Hs|]. constructor; [|constructor].
  unfold one_populated. simpl. split; [|reflexivity].
  apply truthy_true in Hsrc. destruct Hsrc as (c & s & ->). discriminate.
Qed.

End Svgs.

(** C9: every record [extract_svgs] returns has exactly one of [content]
    and [src]: the markup and no locator when [is_inline] is true, a
    locator and no markup when it is false. *)
Theorem svg_records_one_populated (cfg : config) (page : Page.t)
    (svgs : list ScrapedSVG.t) (t : list event) :
  extract_svgs cfg page = (Ok svgs, t) ->
  forall r, In r svgs ->
    (ScrapedSVG.is_inline r = true ->
     ScrapedSVG.content r <> None /\ ScrapedSVG.src r = None) /\
    (ScrapedSVG.is_inline r = false ->
     ScrapedSVG.src r <> None /\ ScrapedSVG.content r = None).
Proof.
  intros H.
  assert (Hall : Forall one_populated svgs).
  { unfold extract_svgs in H.
    apply bind_ok in H. destruct H as (l1 & t1 & t2 & _ & H & _).
    apply bind_ok in H. destruct H as (s1 & t3 & t4 & H1 & H & _).
    apply bind_ok in H. destruct H as (l2 & t5 & t6 & _ & H & _).
    apply bind_ok in H. destruct H as (s2 & t7 & t8 & H2 & H & _).
    apply bind_ok in H. destruct H as (l3 & t9 & t10 & _ & H & _).
    apply bind_ok in H. destruct H as (s3 & t11 & t12 & H3 & H & _).
    apply ret_ok in H. destruct H as [-> _].
    apply (for_enumerate_inv (Forall one_populated)) in H1;
      [|intros i x s s' t0 _; apply inline_svg_populated | constructor].
    apply (for_enumerate_inv (Forall one_populated)) in H2;
      [|intros i x s s' t0 _; apply svg_image_populated | exact H1].
    apply (for_enumerate_inv (Forall one_populated)) in H3;
      [|intros i x s s' t0 _; apply svg_object_populated | exact H2].
    exact H3. }
  intros r Hin. rewrite Forall_forall in Hall. specialize (Hall r Hin).
  unfold one_populated in Hall.
  destruct (ScrapedSVG.is_inline r); split; intros E;
    try discriminate; exact Hall.
Qed.

Lemma svg_records_one_populated_witness :
  (ScrapedSVG.is_inline logo_drawing = true ->
   ScrapedSVG.content logo_drawing <> None /\ ScrapedSVG.src logo_drawing = None) /\
  (ScrapedSVG.is_inline logo_drawing = false ->
   ScrapedSVG.src logo_drawing <> None /\ ScrapedSVG.content logo_drawing = None).
Proof.
  apply (svg_records_one_populated sample_config drawings drawings_svgs
           [Makedirs "screenshots";
            ElementScreenshot "screenshots/inline_svg_0.png";
            Makedirs "screenshots";
            ElementScreenshot "screenshots/svg_img_0.png"]).
  - vm_compute. reflexivity.
  - right. left. reflexivity.
Defined.

(* ================================================================== *)
(** * Session cache *)

Lemma stale_not_valid (cfg : config) (w : world) (mtime : Q) :
  auth_state_mtime w = Some mtime ->
  (inject_Z (AUTH_MAX_AGE cfg) <= now w - mtime)%Q ->
  auth_state_valid cfg w = false.
Proof.
  intros Hm Hage. unfold auth_state_valid. rewrite Hm.
  apply Qltb_ge in Hage. now rewrite Hage.
Qed.

Lemma missing_not_valid (cfg : config) (w : world) :
  auth_state_mtime w = None -> auth_state_valid cfg w = false.
Proof. intros Hm. unfold auth_state_valid. now rewrite Hm. Qed.

(** The login flow opens an unseeded context, goes to the authentication
    address, and returns that context only after the state was saved. *)
Lemma fresh_login_spec (cfg : config) (w : world) :
  (exists rest,
     snd (fresh_login cfg w) =
       NewContext None :: NewPage
       :: Goto (AUTHENTICATION_URL cfg) None :: rest) /\
  (forall path, ~ In (NewContext (Some path)) (snd (fresh_login cfg w))) /\
  (forall c, fst (fresh_login cfg w) = Ok c ->
     c = Context None /\
     In (StorageState (AUTH_STATE_PATH cfg)) (snd (fresh_login cfg w))).
Proof.
  unfold fresh_login, bind, call, try_except, ret, raise.
  set (page := web w (AUTHENTICATION_URL cfg)).
  destruct (Page.goto page) as [[]|e0];
    [|simpl; repeat split; eauto; try discriminate; intuition discriminate].
  destruct (Page.fill page username_selector (USERNAME cfg)) as [[]|e1];
    [|simpl; repeat split; eauto; try discriminate; intuition discriminate].
  destruct (Page.fill page password_selector (PASSWORD cfg)) as [[]|e2];
    [|simpl; repeat split; eauto; try discriminate; intuition discriminate].
  destruct (Page.click page submit_selector) as [[]|e3];
    [|simpl; repeat split; eauto; try discriminate; intuition discriminate].
  destruct (Page.wait_for_load_state page "networkidle") as [[]|e4];
    [|simpl; repeat split; eauto; try discriminate; intuition discriminate].
  destruct (storage_state w) as [[]|e5];
    [|simpl; repeat split; eauto; try discriminate; intuition discriminate].
  destruct (Page.close page) as [[]|e6];
    [|simpl; repeat split; eauto; try discriminate; intuition discriminate].
  simpl. repeat split; eauto; try intuition discriminate.
  match goal with E : Ok _ = Ok _ |- _ => now inversion E end.
Qed.

(** C3: when the saved session exists and its age (now minus its
    modification time) is at least the configured maximum, [authenticate]
    is the browser launch followed by the login flow: no context is seeded
    from the saved state, whatever that state contains, and a context is
    returned only after a fresh login has saved a new state. *)
Theorem stale_session_never_reused (cfg : config) (w : world) (mtime : Q) :
  auth_state_mtime w = Some mtime ->
  (inject_Z (AUTH_MAX_AGE cfg) <= now w - mtime)%Q ->
  authenticate cfg w =
    (call (Launch (HEADLESS cfg) (TIMEOUT cfg)) (Ok tt) ;; fresh_login cfg w)%M /\
  (forall path, ~ In (NewContext (Some path)) (snd (authenticate cfg w))) /\
  (exists rest,
     snd (authenticate cfg w) =
       Launch (HEADLESS cfg) (TIMEOUT cfg) :: NewContext None :: NewPage
       :: Goto (AUTHENTICATION_URL cfg) None :: rest) /\
  (forall c, fst (authenticate cfg w) = Ok c ->
     c = Context None /\
     In (StorageState (AUTH_STATE_PATH cfg)) (snd (authenticate cfg w))).
Proof.
  intros Hm Hage.
  assert (Heq : authenticate cfg w =
    (call (Launch (HEADLESS cfg) (TIMEOUT cfg)) (Ok tt) ;; fresh_login cfg w)%M).
  { unfold authenticate. rewrite (stale_not_valid cfg w mtime Hm Hage).
    unfold bind, call, ret.
    destruct (fresh_login cfg w) as [r t]. reflexivity. }
  split; [exact Heq|]. rewrite Heq.
  destruct (fresh_login_spec cfg w) as ((rest & Hrest) & Hno & Hok).
  unfold bind, call.
  destruct (fresh_login cfg w) as [r t]. simpl in *.
  split; [|split].
  - intros path [H|H]; [discriminate | exact (Hno path H)].
  - exists rest. now rewrite Hrest.
  - intros c Hc. destruct (Hok c Hc) as [-> Hin]. auto.
Qed.

Lemma stale_session_never_reused_witness :
  authenticate sample_config flaky_world =
    (call (Launch true 30000) (Ok tt) ;;
     fresh_login sample_config flaky_world)%M /\
  (forall path,
     ~ In (NewContext (Some path)) (snd (authenticate sample_config flaky_world))) /\
  (exists rest,
     snd (authenticate sample_config flaky_world) =
       Launch true 30000 :: NewContext None :: NewPage
       :: Goto "https://example.org/login" None :: rest) /\
  (forall c, fst (authenticate sample_config flaky_world) = Ok c ->
     c = Context None /\
     In (StorageState "auth_state.json")
        (snd (authenticate sample_config flaky_world))).
Proof.
  apply (stale_session_never_reused sample_config flaky_world
           (inject_Z 1700000000)).
  - reflexivity.
  - vm_compute. discriminate.
Defined.

(** A saved session younger than the maximum age is tried first. *)
Lemma young_session_tried (cfg : config) (w : world) (mtime : Q) :
  auth_state_mtime w = Some mtime ->
  (now w - mtime < inject_Z (AUTH_MAX_AGE cfg))%Q ->
  exists rest,
    snd (authenticate cfg w) =
      Launch (HEADLESS cfg) (TIMEOUT cfg)
      :: NewContext (Some (AUTH_STATE_PATH cfg)) :: rest.
Proof.
  intros Hm Hage. unfold authenticate, auth_state_valid. rewrite Hm.
  apply Qltb_lt in Hage. rewrite Hage.
  unfold cached_session, bind, call.
  destruct (Page.goto (web w (URL cfg))) as [[]|e]; [|simpl; eauto].
  destruct (lift (Page.login_button (web w (URL cfg)))) as [[b|e] t];
    [|simpl; eauto].
  destruct (Page.close (web w (URL cfg))) as [[]|e]; [|simpl; eauto].
  destruct (negb b); simpl; [eauto|].
  destruct (fresh_login cfg w). simpl. eauto.
Qed.

(* ================================================================== *)
(** * Size probe: what the header yields *)




(** Without a header, with an empty one, or when the fetch is rejected
    inside the page, the probe reports size 0 and a small file. *)
Lemma check_file_image_size_unknown (page : Page.t) (src : string) :
  Page.head_request page src = Ok (Response None) \/
  Page.head_request page src = Ok (Response (Some EmptyString)) \/
  Page.head_request page src = Ok FetchRejected ->
  check_file_image_size page src = (Some (Int 0), false).
Proof.
  unfold check_file_image_size. intros [-> | [-> | ->]]; reflexivity.
Qed.

(** When the evaluation itself raises, the [except] branch returns
    [None] for the size. *)
Lemma check_file_image_size_raised (page : Page.t) (src : string) (e : exn) :
  Page.head_request page src = Raise e ->
  check_file_image_size page src = (None, false).
Proof. unfold check_file_image_size. now intros ->. Qed.

(** C4 (the code departs from the claim): on a page where the probe's
    evaluation raises, the size returned is [None], not 0, and the record
    of the image carries [file_size = None]. *)
Theorem size_probe_failure_yields_none :
  check_file_image_size torn_page "https://example.org/photo.png"
    = (None, false) /\
  exists r, is_meaningful_image photo torn_page = Ok (Some r) /\
            ScrapedImage.file_size r = None /\
            ScrapedImage.file_size r <> Some (Int 0).
Proof.
  split; [reflexivity|].
  eexists. split; [vm_compute; reflexivity|].
  split; [reflexivity | discriminate].
Qed.

(* ================================================================== *)
(** * A failing page *)


(** When navigation fails, the page yields the bare empty list. *)
Lemma extract_images_goto_failed (cfg : config) (w : world) (c : context)
    (url : string) (e : exn) :
  Page.goto (web w url) = Raise e ->
  Page.close (web w url) = Ok tt ->
  extract_images cfg w c url
  = (Ok EmptyList, [NewPage; Goto url (Some 30000); ClosePage]).
Proof.
  intros Hg Hc. unfold extract_images, bind, call, try_finally, try_except.
  rewrite Hg, Hc. reflexivity.
Qed.

(** Unpacking the empty list into three names raises, and nothing in
    [crawl_links] catches it: the crawl stops at the first failing page. *)
Lemma crawl_aborts_on_failed_page (cfg : config) (w : world)
    (link : string) (rest : list string) (e : exn) :
  Page.goto (web w link) = Raise e ->
  Page.close (web w link) = Ok tt ->
  crawl_links cfg w (link :: rest)
  = (Raise ValueError,
     [Launch (HEADLESS cfg) (TIMEOUT cfg);
      NewContext (Some (AUTH_STATE_PATH cfg));
      Makedirs (SCREENSHOT_DIR cfg);
      NewPage; Goto link (Some 30000); ClosePage;
      CloseBrowser]).
Proof.
  intros Hg Hc. unfold crawl_links. rewrite crawl_loop_cons.
  cbn [Nat.ltb Nat.leb].
  rewrite (extract_images_goto_failed cfg w _ link e Hg Hc).
  reflexivity.
Qed.

(** C2 (the code departs from the claim): the page at [slow_address]
    times out; [extract_images] catches the failure and returns the empty
    list, but the crawl then raises [ValueError], never opens the next
    address and writes no output file. *)
Theorem page_failure_aborts_crawl :
  extract_images sample_config flaky_world
    (Context (Some "auth_state.json")) slow_address
  = (Ok EmptyList, [NewPage; Goto slow_address (Some 30000); ClosePage]) /\
  crawl_links sample_config flaky_world [slow_address; "https://example.org/"]
  = (Raise ValueError,
     [Launch true 30000; NewContext (Some "auth_state.json");
      Makedirs "screenshots";
      NewPage; Goto slow_address (Some 30000); ClosePage;
      CloseBrowser]) /\
  visited (snd (crawl_links sample_config flaky_world
                  [slow_address; "https://example.org/"]))
  = [slow_address].
Proof.
  split; [|split]; vm_compute; reflexivity.
Qed.

(* ================================================================== *)
(** * The pages a crawl opens *)

Lemma visited_app (t1 t2 : list event) :
  visited (t1 ++ t2) = visited t1 ++ visited t2.
Proof.
  induction t1 as [|ev t1 IH]; [reflexivity|].
  simpl. destruct (page_visit ev); rewrite IH; reflexivity.
Qed.

Lemma snd_bind {A B : Type} (m : M A) (k : A -> M B) :
  snd (bind m k) =
  snd m ++ match fst m with Ok a => snd (k a) | Raise _ => [] end.
Proof.
  unfold bind. destruct m as [[a|e] t]; simpl.
  - now destruct (k a).
  - now rewrite app_nil_r.
Qed.

Lemma fst_bind {A B : Type} (m : M A) (k : A -> M B) :
  fst (bind m k) =
  match fst m with Ok a => fst (k a) | Raise e => Raise e end.
Proof.
  unfold bind. destruct m as [[a|e] t]; simpl; [now destruct (k a)|reflexivity].
Qed.

Lemma snd_try_except {A : Type} (m : M A) (h : exn -> M A) :
  snd (try_except m h) =
  snd m ++ match fst m with Ok _ => [] | Raise e => snd (h e) end.
Proof.
  unfold try_except. destruct m as [[a|e] t]; simpl.
  - now rewrite app_nil_r.
  - now destruct (h e).
Qed.

Lemma snd_try_finally {A : Type} (m : M A) (c : M unit) :
  snd (try_finally m c) = snd m ++ snd c.
Proof.
  unfold try_finally. destruct m as [r t]. now destruct c as [[[]|e] t'].
Qed.

Lemma quiet_ret {A : Type} (a : A) : quiet (ret a).
Proof. reflexivity. Qed.

Lemma quiet_raise {A : Type} (e : exn) : quiet (@raise A e).
Proof. reflexivity. Qed.

Lemma quiet_lift {A : Type} (r : result A) : quiet (lift r).
Proof. reflexivity. Qed.

Lemma quiet_call {A : Type} (ev : event) (r : result A) :
  page_visit ev = None -> quiet (call ev r).
Proof. unfold quiet, call. simpl. now intros ->. Qed.

Lemma quiet_bind {A B : Type} (m : M A) (k : A -> M B) :
  quiet m -> (forall a, quiet (k a)) -> quiet (bind m k).
Proof.
  unfold quiet. intros Hm Hk. rewrite snd_bind, visited_app, Hm.
  destruct (fst m); [apply Hk | reflexivity].
Qed.

Lemma quiet_try_except {A : Type} (m : M A) (h : exn -> M A) :
  quiet m -> (forall e, quiet (h e)) -> quiet (try_except m h).
Proof.
  unfold quiet. intros Hm Hh. rewrite snd_try_except, visited_app, Hm.
  destruct (fst m); [reflexivity | apply Hh].
Qed.

Lemma quiet_for_enumerate {A St : Type} (body : nat -> A -> St -> M St)
    (l : list A) :
  (forall i x s, quiet (body i x s)) ->
  forall i s, quiet (for_enumerate body i l s).
Proof.
  intros Hb. induction l as [|x l IH]; intros i s; simpl.
  - apply quiet_ret.
  - apply quiet_bind; [apply Hb | intros s'; apply IH].
Qed.

Ltac quiet_step :=
  first
    [ apply quiet_ret
    | apply quiet_raise
    | apply quiet_lift
    | apply quiet_call; reflexivity
    | apply quiet_bind; [|intros]
    | apply quiet_try_except; [|intros]
    | apply quiet_for_enumerate; intros
    | match goal with
      | |- quiet (if ?b then _ else _) => destruct b
      | |- quiet (match ?x with _ => _ end) => destruct x
      end ].

Lemma save_image_screenshot_quiet (cfg : config) (w : world) (page : Page.t)
    (image_data : ScrapedImage.t) (index : nat) :
  quiet (save_image_screenshot cfg w page image_data index).
Proof. unfold save_image_screenshot. repeat quiet_step. Qed.

Lemma classify_one_quiet (cfg : config) (w : world) (page : Page.t)
    (image : Element.t) (lists : list ScrapedImage.t * list ScrapedImage.t) :
  quiet (classify_one cfg w page image lists).
Proof.
  unfold classify_one. destruct lists as [all_images meaningful_images].
  repeat first [apply save_image_screenshot_quiet | quiet_step].
Qed.

Lemma extract_svgs_quiet (cfg : config) (page : Page.t) :
  quiet (extract_svgs cfg page).
Proof.
  unfold extract_svgs, inline_svg, svg_image, svg_object.
  repeat quiet_step.
Qed.

(** A [try] block that starts with the navigation and is quiet after it. *)
Lemma visited_after_goto {A : Type} (url : string) (r : result unit)
    (rest : M A) (h : exn -> M A) :
  quiet rest -> (forall e, quiet (h e)) ->
  visited
    (snd (try_except (call (Goto url (Some 30000)) r ;; rest)%M h)) = [url].
Proof.
  unfold quiet. intros Hr Hh.
  rewrite snd_try_except, snd_bind, fst_bind, !visited_app.
  cbn [call fst snd]. destruct r as [[]|e].
  - rewrite Hr. destruct (fst rest) as [a|e]; [reflexivity|].
    rewrite (Hh e). reflexivity.
  - rewrite (Hh e). reflexivity.
Qed.

(** A page of the crawl is navigated to once, at the address given. *)
Lemma extract_images_visits (cfg : config) (w : world) (c : context)
    (url : string) :
  visited (snd (extract_images cfg w c url)) = [url].
Proof.
  unfold extract_images.
  rewrite snd_bind. cbn [call fst snd].
  rewrite snd_try_finally, !visited_app. cbn [call snd].
  rewrite visited_after_goto; [reflexivity| |intros; apply quiet_ret].
  repeat first [ apply classify_one_quiet | apply extract_svgs_quiet
               | quiet_step ].
Qed.

Lemma crawl_loop_visits (cfg : config) (w : world) (c : context)
    (links : list string) :
  forall i acc,
    (exists n,
       visited (snd (crawl_loop cfg w c i links acc))
       = firstn n (firstn (10 - i) links)) /\
    (forall acc',
       fst (crawl_loop cfg w c i links acc) = Ok acc' ->
       visited (snd (crawl_loop cfg w c i links acc))
       = firstn (10 - i) links).
Proof.
  induction links as [|link rest IH]; intros i acc.
  - simpl. split; [exists 0%nat; reflexivity|].
    intros _ _. now rewrite firstn_nil.
  - rewrite crawl_loop_cons. destruct (Nat.ltb i 10) eqn:Hi.
    + apply Nat.ltb_lt in Hi.
      replace (10 - i)%nat with (S (10 - S i)) by lia.
      pose proof (extract_images_visits cfg w c link) as Hv.
      destruct (extract_images cfg w c link) as [[[m a s|]|e] t];
        simpl in Hv.
      * unfold bind, unpack3, ret, call.
        match goal with
        | |- context [crawl_loop cfg w c (S i) rest ?acc1] =>
            destruct (IH (S i) acc1) as [[n Hn] Hok];
            destruct (crawl_loop cfg w c (S i) rest acc1) as [r' t'] eqn:El
        end.
        set (k := (10 - S i)%nat) in *. clearbody k.
        simpl in Hn, Hok. simpl.
        rewrite visited_app, Hv. simpl.
        split.
        -- exists (S n). simpl. now rewrite Hn.
        -- intros acc' Hr. now rewrite (Hok acc' Hr).
      * set (k := (10 - S i)%nat). clearbody k.
        unfold bind, unpack3, raise. simpl. rewrite app_nil_r, Hv.
        split; [exists 1%nat; reflexivity | discriminate].
      * set (k := (10 - S i)%nat). clearbody k.
        unfold bind. simpl. rewrite Hv.
        split; [exists 1%nat; reflexivity | discriminate].
    + apply Nat.ltb_ge in Hi.
      replace (10 - i)%nat with 0%nat by lia. simpl.
      split; [exists 0%nat; reflexivity | reflexivity].
Qed.

Lemma crawl_links_visits (cfg : config) (w : world) (links : list string) :
  visited (snd (crawl_links cfg w links))
  = visited (snd (crawl_loop cfg w (Context (Some (AUTH_STATE_PATH cfg))) 0
                    links
                    {| all_meaningful_images := []; all_images := [];
                       all_svgs := [] |})) /\
  (forall returned, fst (crawl_links cfg w links) = Ok returned ->
     exists acc,
       fst (crawl_loop cfg w (Context (Some (AUTH_STATE_PATH cfg))) 0 links
              {| all_meaningful_images := []; all_images := [];
                 all_svgs := [] |}) = Ok acc).
Proof.
  unfold crawl_links.
  destruct (crawl_loop cfg w (Context (Some (AUTH_STATE_PATH cfg))) 0 links
              {| all_meaningful_images := []; all_images := [];
                 all_svgs := [] |}) as [[acc|e] t];
    unfold try_finally, bind, call, ret; simpl.
  - rewrite !visited_app. simpl. rewrite !app_nil_r. split; eauto.
  - rewrite !visited_app. simpl. rewrite !app_nil_r. split; [reflexivity|].
    discriminate.
Qed.

(** Whatever happens, the pages opened are an initial part of the first
    ten links, in order: no link beyond the tenth is ever opened. *)
Lemma crawl_never_beyond_ten (cfg : config) (w : world) (links : list string) :
  exists n,
    visited (snd (crawl_links cfg w links)) = firstn n (firstn 10 links).
Proof.
  destruct (crawl_links_visits cfg w links) as [-> _].
  destruct (crawl_loop_visits cfg w (Context (Some (AUTH_STATE_PATH cfg)))
              links 0 {| all_meaningful_images := []; all_images := [];
                         all_svgs := [] |}) as [[n Hn] _].
  exists n. exact Hn.
Qed.

(** When the crawl returns, it has opened exactly the first
    min(length, 10) links, in order. *)
Lemma crawl_completed_first_ten (cfg : config) (w : world)
    (links : list string) (returned : list ScrapedImage.t) (t : list event) :
  crawl_links cfg w links = (Ok returned, t) ->
  visited t = firstn 10 links /\
  List.length (visited t) = Nat.min 10 (List.length links).
Proof.
  intros H.
  destruct (crawl_links_visits cfg w links) as [Hv Hok].
  rewrite H in Hv, Hok. cbn [fst snd] in Hv, Hok.
  destruct (Hok returned eq_refl) as [acc Hacc].
  destruct (crawl_loop_visits cfg w (Context (Some (AUTH_STATE_PATH cfg)))
              links 0 {| all_meaningful_images := []; all_images := [];
                         all_svgs := [] |}) as [_ Hall].
  rewrite (Hall acc Hacc) in Hv.
  change (10 - 0)%nat with 10%nat in Hv.
  split; [exact Hv|]. rewrite Hv. apply length_firstn.
Qed.

(** C8 (the code departs from the claim): of twelve links whose third
    page times out, the crawl opens three and then raises [ValueError]
    from the unpacking of the empty list; with twelve pages that load, it
    opens the first ten. *)
Theorem failed_page_cuts_crawl_short :
  fst (crawl_links sample_config flaky_world twelve_links_one_slow)
    = Raise ValueError /\
  visited (snd (crawl_links sample_config flaky_world twelve_links_one_slow))
    = ["https://example.org/1"; "https://example.org/2"; slow_address] /\
  visited (snd (crawl_links sample_config flaky_world twelve_links_one_slow))
    <> firstn 10 twelve_links_one_slow /\
  visited (snd (crawl_links sample_config steady_world twelve_links))
    = firstn 10 twelve_links.
Proof.
  split; [|split; [|split]]; vm_compute; try reflexivity; discriminate.
Qed.

(** When each of the first ten pages yields its triple, the loop runs to
    its end. *)
Lemma crawl_loop_completes (cfg : config) (w : world) (c : context)
    (links : list string) :
  forall i acc,
    (forall link, In link (firstn (10 - i) links) ->
       exists m a s, fst (extract_images cfg w c link) = Ok (Triple m a s)) ->
    exists acc', fst (crawl_loop cfg w c i links acc) = Ok acc'.
Proof.
  induction links as [|link rest IH]; intros i acc Hpages.
  - exists acc. reflexivity.
  - rewrite crawl_loop_cons. destruct (Nat.ltb i 10) eqn:Hi.
    + apply Nat.ltb_lt in Hi.
      replace (10 - i)%nat with (S (10 - S i)) in Hpages by lia.
      destruct (Hpages link (or_introl eq_refl)) as (m & a & s & Hlink).
      destruct (extract_images cfg w c link) as [r t]. simpl in Hlink.
      subst r. unfold bind, unpack3, ret, call.
      match goal with
      | |- context [crawl_loop cfg w c (S i) rest ?acc1] =>
          destruct (IH (S i) acc1) as [acc' Hacc'];
          [ intros l Hl; apply Hpages; right; exact Hl
          | destruct (crawl_loop cfg w c (S i) rest acc1) as [r' t'] ]
      end.
      simpl in Hacc'. exists acc'. exact Hacc'.
    + exists acc. reflexivity.
Qed.

(** Then the crawl returns, having opened exactly the first
    min(length, 10) links, in order. *)
Lemma crawl_completes_when_pages_succeed (cfg : config) (w : world)
    (links : list string) :
  (forall link, In link (firstn 10 links) ->
     exists m a s,
       fst (extract_images cfg w (Context (Some (AUTH_STATE_PATH cfg))) link)
       = Ok (Triple m a s)) ->
  exists returned t,
    crawl_links cfg w links = (Ok returned, t) /\
    visited t = firstn 10 links.
Proof.
  intros Hpages.
  destruct (crawl_loop_completes cfg w (Context (Some (AUTH_STATE_PATH cfg)))
              links 0 {| all_meaningful_images := []; all_images := [];
                         all_svgs := [] |} Hpages) as [acc Hacc].
  assert (Hret : fst (crawl_links cfg w links) = Ok (all_meaningful_images acc)).
  { unfold crawl_links.
    destruct (crawl_loop cfg w (Context (Some (AUTH_STATE_PATH cfg))) 0 links
                {| all_meaningful_images := []; all_images := [];
                   all_svgs := [] |}) as [r t].
    simpl in Hacc. subst r. reflexivity. }
  destruct (crawl_links cfg w links) as [r t] eqn:E. simpl in Hret. subst r.
  exists (all_meaningful_images acc), t. split; [reflexivity|].
  exact (proj1 (crawl_completed_first_ten cfg w links _ t E)).
Qed.

(* ================================================================== *)
(** * Screenshot file names *)

Lemma forallb_filter_string (p : ascii -> bool) (s : string) :
  forallb_string p (filter_string p s) = true.
Proof.
  induction s as [|c s IH]; [reflexivity|].
  simpl. destruct (p c) eqn:Hc; [simpl; now rewrite Hc|exact IH].
Qed.

Lemma forallb_substring (p : ascii -> bool) (n : nat) (s : string) :
  forallb_string p s = true -> forallb_string p (substring 0 n s) = true.
Proof.
  revert s. induction n as [|n IH]; intros [|c s] H; try reflexivity.
  simpl in *. apply andb_true_iff in H. destruct H as [Hc Hs].
  rewrite Hc. now apply IH.
Qed.

Lemma length_substring (n : nat) (s : string) :
  (String.length (substring 0 n s) <= n)%nat.
Proof.
  revert s. induction n as [|n IH]; intros [|c s]; simpl; try lia.
  specialize (IH s). lia.
Qed.

Lemma substring_short (n : nat) (s : string) :
  (String.length s <= n)%nat -> substring 0 n s = s.
Proof.
  revert s. induction n as [|n IH]; intros [|c s] H; simpl in *;
    try reflexivity; try lia.
  f_equal. apply IH. lia.
Qed.

Lemma forallb_not_contains (p : ascii -> bool) (c : ascii) (s : string) :
  p c = false -> forallb_string p s = true -> contains_char c s = false.
Proof.
  intros Hc. induction s as [|d s IH]; [reflexivity|].
  simpl. intros H. apply andb_true_iff in H. destruct H as [Hd Hs].
  rewrite (IH Hs), orb_false_r.
  destruct (Ascii.eqb_spec d c) as [->|]; [congruence|reflexivity].
Qed.

(** [str(n)] is a non-empty string of decimal digits. *)
Lemma string_of_uint_digits (d : Decimal.uint) :
  forallb_string is_ascii_digit (NilEmpty.string_of_uint d) = true.
Proof. induction d; simpl; auto. Qed.

Lemma str_head_digit (n : nat) :
  exists c r, str n = String c r /\ is_ascii_digit c = true.
Proof.
  unfold str, NilZero.string_of_uint.
  destruct (Nat.to_uint n) as [|d|d|d|d|d|d|d|d|d|d]; simpl; eauto.
Qed.

Lemma digit_is_filename_char (c : ascii) :
  is_ascii_digit c = true -> filename_char c = true.
Proof.
  intros H. unfold filename_char, py_isalnum_char. now rewrite H.
Qed.

(** X1: the file name of a screenshot contains only letters, digits and
    the characters [._-], has at most 100 characters, begins with a digit
    of the position index and contains no path separator. *)
Theorem screenshot_filename_sanitized (image_url : string) (index : nat) :
  forallb_string filename_char (screenshot_filename image_url index) = true /\
  (String.length (screenshot_filename image_url index) <= 100)%nat /\
  contains_char "/" (screenshot_filename image_url index) = false /\
  exists c r, screenshot_filename image_url index = String c r /\
              is_ascii_digit c = true.
Proof.
  assert (Hall : forallb_string filename_char
                   (screenshot_filename image_url index) = true).
  { unfold screenshot_filename. apply forallb_substring.
    apply (forallb_filter_string filename_char). }
  split; [exact Hall|]. split; [apply length_substring|].
  split; [apply (forallb_not_contains filename_char); [reflexivity|exact Hall]|].
  change (screenshot_filename image_url index) with
    (let filename :=
       (str index ++ "_" ++ basename (before_char "?" image_url))%string in
     let filename :=
       if negb (contains_char "." filename) then (filename ++ ".png")%string
       else filename in
     substring 0 100 (filter_string filename_char filename)).
  cbv zeta.
  destruct (str_head_digit index) as (c & r & Hstr & Hc).
  rewrite Hstr.
  pose proof (digit_is_filename_char c Hc) as Hf.
  match goal with
  | |- context [if ?b then _ else _] => destruct b
  end; cbn [append filter_string]; rewrite Hf; cbn [substring]; eauto.
Qed.

(** The path of a screenshot is the file name inside the directory. *)
Lemma screenshot_path_in_dir (dir image_url : string) (index : nat) :
  path_join dir (screenshot_filename image_url index) =
  match last_char dir with
  | None => screenshot_filename image_url index
  | Some d =>
      if Ascii.eqb d "/"
      then (dir ++ screenshot_filename image_url index)%string
      else (dir ++ "/" ++ screenshot_filename image_url index)%string
  end.
Proof.
  destruct (screenshot_filename_sanitized image_url index)
    as (_ & _ & _ & c & r & Hfn & Hc).
  unfold path_join. rewrite Hfn.
  assert (Hp : String.prefix "/" (String c r) = false).
  { clear Hfn. destruct c as [[] [] [] [] [] [] [] []];
      try discriminate Hc; reflexivity. }
  now rewrite Hp.
Qed.

(* ================================================================== *)
(** * Screenshot resolver *)

Ltac save_cases :=
  unfold save_image_screenshot, try_except, bind, lift, call, ret;
  repeat match goal with
    | |- context [Page.query_selector ?p ?s] =>
        destruct (Page.query_selector p s) as [[?el|]|?e]
    | |- context [Element.screenshot ?el] =>
        destruct (Element.screenshot el) as [[]|?e]
    | |- context [String.prefix ?a ?b] => destruct (String.prefix a b)
    | |- context [Page.goto ?p] => destruct (Page.goto p) as [[]|?e]
    | |- context [Page.screenshot ?p] => destruct (Page.screenshot p) as [[]|?e]
    | |- context [Page.close ?p] => destruct (Page.close p) as [[]|?e]
    end;
  cbn [fst snd app orb].

(** X2: [save_image_screenshot] never raises; it returns [None], or the
    path of the file inside the screenshot directory after a screenshot
    call with that path (of the element, or of a secondary page)
    returned. *)
Theorem save_image_screenshot_never_raises (cfg : config) (w : world)
    (page : Page.t) (image_data : ScrapedImage.t) (index : nat) :
  let filepath :=
    path_join (SCREENSHOT_DIR cfg)
      (screenshot_filename (ScrapedImage.src image_data) index) in
  let m := save_image_screenshot cfg w page image_data index in
  fst m = Ok None \/
  (fst m = Ok (Some filepath) /\
   (In (ElementScreenshot filepath) (snd m)
    \/ In (PageScreenshot filepath) (snd m))).
Proof.
  intros filepath m. subst m filepath.
  save_cases; simpl; auto 10.
Qed.

(** X3: the first method wins: when the element is found again on the
    page and its screenshot succeeds, that path is returned and no
    secondary page is opened. *)
Theorem save_image_screenshot_first_method (cfg : config) (w : world)
    (page : Page.t) (image_data : ScrapedImage.t) (index : nat)
    (new_image : Element.t) :
  Page.query_selector page
    ("img[src='" ++ ScrapedImage.src image_data ++ "']")%string
    = Ok (Some new_image) ->
  Element.screenshot new_image = Ok tt ->
  let filepath :=
    path_join (SCREENSHOT_DIR cfg)
      (screenshot_filename (ScrapedImage.src image_data) index) in
  save_image_screenshot cfg w page image_data index
  = (Ok (Some filepath), [ElementScreenshot filepath]).
Proof.
  intros Hq Hs filepath. subst filepath.
  unfold save_image_screenshot, try_except, bind, lift, call, ret.
  rewrite Hq, Hs. reflexivity.
Qed.

(** X4: the second method is tried only for absolute [http://] or
    [https://] locators: for any other locator no page is opened,
    navigated or closed, whatever the first method did. *)
Theorem save_image_screenshot_relative_locator (cfg : config) (w : world)
    (page : Page.t) (image_data : ScrapedImage.t) (index : nat) :
  String.prefix "http://" (ScrapedImage.src image_data) = false ->
  String.prefix "https://" (ScrapedImage.src image_data) = false ->
  never is_page_call (save_image_screenshot cfg w page image_data index).
Proof.
  intros H1 H2. unfold never.
  unfold save_image_screenshot, try_except, bind, lift, call, ret.
  rewrite H1, H2.
  repeat match goal with
    | |- context [Page.query_selector ?p ?s] =>
        destruct (Page.query_selector p s) as [[?el|]|?e]
    | |- context [Element.screenshot ?el] =>
        destruct (Element.screenshot el) as [[]|?e]
    end; reflexivity.
Qed.

(* ================================================================== *)
(** * Degraded signals *)

Lemma py_int_raises_value_error (s : string) (e : exn) :
  py_int s = Raise e -> e = ValueError.
Proof.
  unfold py_int.
  match goal with
  | |- context [let '(_, _) := ?x in _] => destruct x as [negative digits]
  end.
  destruct (scan_digits digits AtStart 0 0) as [[n k]|];
    [destruct (Nat.ltb int_max_str_digits k)|];
    intros H; inversion H; reflexivity.
Qed.

(** Once both attributes are read, [check_image_size] returns: what
    [int()] raises is caught. *)
Lemma check_image_size_returns (image : Element.t)
    (width height : option string) :
  Element.get_attribute image "width" = Ok width ->
  Element.get_attribute image "height" = Ok height ->
  exists shape, check_image_size image = Ok shape.
Proof.
  intros Hw Hh. unfold check_image_size. rewrite Hw, Hh. simpl.
  destruct (negb (truthy width) || negb (truthy height))%bool; [eauto|].
  destruct width as [width|], height as [height|]; eauto.
  destruct (py_int width) as [a|ea] eqn:Ea; simpl.
  - destruct (py_int height) as [b|eb] eqn:Eb; simpl.
    + destruct ((100 <? a) && (100 <? b))%bool; simpl; eauto.
    + rewrite (py_int_raises_value_error _ _ Eb). simpl. eauto.
  - rewrite (py_int_raises_value_error _ _ Ea). simpl. eauto.
Qed.

(** X5: failures of the geometry probe and of the size probe never abort
    the classification of an image: as soon as its four attribute reads
    return, [is_meaningful_image] returns, and it returns a record exactly
    when the locator is not empty. *)
Theorem probe_failures_do_not_abort (image : Element.t) (page : Page.t)
    (src alt width height : option string) :
  Element.get_attribute image "src" = Ok src ->
  Element.get_attribute image "alt" = Ok alt ->
  Element.get_attribute image "width" = Ok width ->
  Element.get_attribute image "height" = Ok height ->
  (truthy src = false /\ is_meaningful_image image page = Ok None) \/
  (truthy src = true /\
   exists r, is_meaningful_image image page = Ok (Some r) /\
             Some (ScrapedImage.src r) = src /\
             ScrapedImage.url r = Page.url page /\
             ScrapedImage.alt r = alt).
Proof.
  intros Hs Ha Hw Hh.
  destruct (check_image_size_returns image width height Hw Hh)
    as [[[w0 h0] shape] Hshape].
  unfold is_meaningful_image. rewrite Hs. simpl.
  destruct src as [[|c s]|]; simpl; auto.
  right. split; [reflexivity|].
  rewrite Ha. simpl.
  destruct (is_header_footer_logo image) as [[is_header is_footer] is_logo].
  destruct (check_file_image_size page (String c s)) as [file_size is_large_file].
  rewrite Hshape. simpl. eexists. split; [reflexivity|]. simpl. auto.
Qed.

(** X6: when the geometry probe of an image fails, its record has no zone
    flags and is not a logo, so the verdict rests on the two other
    signals alone. *)
Theorem failed_geometry_is_not_logo (image : Element.t) (page : Page.t)
    (r : ScrapedImage.t) (e : exn) :
  Element.layout_probe image = Raise e ->
  is_meaningful_image image page = Ok (Some r) ->
  ScrapedImage.is_header r = None /\
  ScrapedImage.is_footer r = None /\
  ScrapedImage.is_logo r = false /\
  ScrapedImage.is_meaningful r =
    (ScrapedImage.is_large_file r && ScrapedImage.has_image_shape r)%bool.
Proof.
  intros Hg H.
  destruct (is_meaningful_image_inv _ _ _ H)
    as (src & alt & width & height & shape & _ & _ & _ & _ & ->).
  rewrite (is_header_footer_logo_failed image e Hg). simpl. auto.
Qed.

(** X7: an image whose size is unknown (the evaluation raised, the fetch
    was rejected, or the response has no or an empty [Content-Length]) is
    never meaningful: its record has [file_size] [None] or 0 and
    [is_large_file] false. *)
Theorem unknown_size_never_meaningful (image : Element.t) (page : Page.t)
    (r : ScrapedImage.t) :
  is_meaningful_image image page = Ok (Some r) ->
  (exists e, Page.head_request page (ScrapedImage.src r) = Raise e) \/
  Page.head_request page (ScrapedImage.src r) = Ok FetchRejected \/
  Page.head_request page (ScrapedImage.src r) = Ok (Response None) \/
  Page.head_request page (ScrapedImage.src r) = Ok (Response (Some EmptyString)) ->
  (ScrapedImage.file_size r = None \/ ScrapedImage.file_size r = Some (Int 0)) /\
  ScrapedImage.is_large_file r = false /\
  ScrapedImage.is_meaningful r = false.
Proof.
  intros H Hhead.
  destruct (is_meaningful_image_inv _ _ _ H)
    as (src & alt & width & height & shape & _ & _ & _ & _ & ->).
  simpl in *.
  assert (Hsize : check_file_image_size page src = (None, false) \/
                  check_file_image_size page src = (Some (Int 0), false)).
  { destruct Hhead as [[e He] | Hhead].
    - left. exact (check_file_image_size_raised page src e He).
    - right. apply check_file_image_size_unknown. tauto. }
  destruct Hsize as [-> | ->]; simpl; rewrite andb_false_r; auto.
Qed.

(* ================================================================== *)
(** * The lists of a page *)

Lemma classifier_none_no_locator (image : Element.t) (page : Page.t) :
  is_meaningful_image image page = Ok None -> locator image = [].
Proof.
  unfold is_meaningful_image, locator.
  destruct (Element.get_attribute image "src") as [[[|c s]|]|e];
    simpl; try reflexivity; try discriminate.
  destruct (Element.get_attribute image "alt") as [alt|e]; simpl;
    try discriminate.
  destruct (is_header_footer_logo image) as [[is_header is_footer] is_logo].
  destruct (check_file_image_size page (String c s)) as [file_size is_large_file].
  destruct (check_image_size image) as [[[width height] shape]|e];
    simpl; discriminate.
Qed.

Lemma classifier_some_locator (image : Element.t) (page : Page.t)
    (r : ScrapedImage.t) :
  is_meaningful_image image page = Ok (Some r) ->
  locator image = [ScrapedImage.src r] /\
  ScrapedImage.screenshot_path r = None /\
  ScrapedImage.url r = Page.url page.
Proof.
  intros H.
  destruct (is_meaningful_image_inv _ _ _ H)
    as (src & alt & width & height & shape & Hsrc & Hne & _ & _ & ->).
  unfold locator. rewrite Hsrc. simpl.
  destruct src as [|c s]; [contradiction|auto].
Qed.

(** What one round of the loop over the images does to the two lists. *)
Lemma classify_one_inv (cfg : config) (w : world) (page : Page.t)
    (image : Element.t) (all_images meaningful_images : list ScrapedImage.t)
    (lists' : list ScrapedImage.t * list ScrapedImage.t) (t : list event) :
  classify_one cfg w page image (all_images, meaningful_images) = (Ok lists', t) ->
  (is_meaningful_image image page = Ok None /\
   lists' = (all_images, meaningful_images)) \/
  (exists r, is_meaningful_image image page = Ok (Some r) /\
     ScrapedImage.is_meaningful r = false /\
     lists' = (all_images ++ [r], meaningful_images)) \/
  (exists r p, is_meaningful_image image page = Ok (Some r) /\
     ScrapedImage.is_meaningful r = true /\
     fst (save_image_screenshot cfg w page r (List.length meaningful_images))
       = Ok p /\
     let r' := if truthy p then ScrapedImage.set_screenshot_path p r else r in
     lists' = (all_images ++ [r'], meaningful_images ++ [r'])).
Proof.
  unfold classify_one. intros H.
  apply bind_ok in H. destruct H as (d & t1 & t2 & H1 & H2 & _).
  apply lift_ok in H1. destruct H1 as [H1 _].
  destruct d as [r|].
  - destruct (ScrapedImage.is_meaningful r) eqn:Hm.
    + apply bind_ok in H2. destruct H2 as (p & t3 & t4 & Hp & H3 & _).
      apply ret_ok in H3. destruct H3 as [-> _].
      right. right. exists r, p. rewrite Hp. auto.
    + apply ret_ok in H2. destruct H2 as [-> _]. right. left. eauto.
  - apply ret_ok in H2. destruct H2 as [-> _]. left. auto.
Qed.

(** The parts of a page that returned its triple. *)
Lemma extract_images_inv (cfg : config) (w : world) (c : context)
    (url : string) (meaningful_images all_images : list ScrapedImage.t)
    (svgs : list ScrapedSVG.t) (t : list event) :
  extract_images cfg w c url
    = (Ok (Triple meaningful_images all_images svgs), t) ->
  exists images t1 t2,
    Page.query_selector_all (web w url) "img" = Ok images /\
    for_enumerate (fun _ => classify_one cfg w (web w url)) 0 images ([], [])
      = (Ok (all_images, meaningful_images), t1) /\
    extract_svgs cfg (web w url) = (Ok svgs, t2).
Proof.
  intros H. unfold extract_images in H.
  apply bind_ok in H. destruct H as (u & t1 & t2 & _ & H & _).
  apply try_finally_ok in H. destruct H as (t3 & t4 & H & _ & _).
  apply try_except_ok in H.
  destruct H as [H | (e & t5 & t6 & _ & H & _)];
    [|apply ret_ok in H; destruct H; discriminate].
  apply bind_ok in H. destruct H as (u1 & t5 & t6 & _ & H & _).
  apply bind_ok in H. destruct H as (u2 & t7 & t8 & _ & H & _).
  apply bind_ok in H. destruct H as (images & t9 & t10 & Hq & H & _).
  apply lift_ok in Hq. destruct Hq as [Hq _].
  apply bind_ok in H. destruct H as (lists & t11 & t12 & Hloop & H & _).
  destruct lists as [a m].
  apply bind_ok in H. destruct H as (s & t13 & t14 & Hsvg & H & _).
  apply ret_ok in H. destruct H as [H _]. inversion H; subst.
  exists images, t11, t13. auto.
Qed.

(** A relation between the lists before and after the loop that every
    round keeps, holds for the whole loop. *)
Lemma classify_loop_inv (cfg : config) (w : world) (page : Page.t)
    (P : list Element.t -> list ScrapedImage.t -> list ScrapedImage.t -> Prop) :
  P [] [] [] ->
  (forall seen image a m lists' t,
     P seen a m ->
     classify_one cfg w page image (a, m) = (Ok lists', t) ->
     P (seen ++ [image]) (fst lists') (snd lists')) ->
  forall images a m t,
    for_enumerate (fun _ => classify_one cfg w page) 0 images ([], [])
      = (Ok (a, m), t) ->
    P images a m.
Proof.
  intros H0 Hstep.
  assert (Hgen : forall images seen i a0 m0 a m t,
            P seen a0 m0 ->
            for_enumerate (fun _ => classify_one cfg w page) i images (a0, m0)
              = (Ok (a, m), t) ->
            P (seen ++ images) a m).
  { induction images as [|image images IH]; intros seen i a0 m0 a m t Hp H.
    - simpl in H. apply ret_ok in H. destruct H as [H _].
      inversion H; subst. now rewrite app_nil_r.
    - simpl in H. apply bind_ok in H.
      destruct H as ([a1 m1] & t1 & t2 & H1 & H2 & _).
      replace (seen ++ image :: images) with ((seen ++ [image]) ++ images)
        by (rewrite <- app_assoc; reflexivity).
      apply (IH (seen ++ [image]) (S i) a1 m1 a m t2); [|exact H2].
      exact (Hstep seen image a0 m0 (a1, m1) t1 Hp H1). }
  intros images a m t H. exact (Hgen images [] 0%nat [] [] a m t H0 H).
Qed.

(** X8: the meaningful images of a page are its images whose verdict is
    true, in the same order and with the same contents (they are the same
    objects). *)
Theorem meaningful_images_are_filtered (cfg : config) (w : world)
    (c : context) (url : string)
    (meaningful_images all_images : list ScrapedImage.t)
    (svgs : list ScrapedSVG.t) (t : list event) :
  extract_images cfg w c url
    = (Ok (Triple meaningful_images all_images svgs), t) ->
  meaningful_images = filter ScrapedImage.is_meaningful all_images.
Proof.
  intros H.
  destruct (extract_images_inv _ _ _ _ _ _ _ _ H)
    as (images & t1 & t2 & _ & Hloop & _).
  apply (classify_loop_inv cfg w (web w url)
           (fun _ a m => m = filter ScrapedImage.is_meaningful a))
    in Hloop; [exact Hloop | reflexivity |].
  intros seen image a m lists' t0 Hm Hone.
  apply classify_one_inv in Hone.
  destruct Hone as [[_ ->] | [(r & _ & Hr & ->) | (r & p & _ & Hr & _ & ->)]];
    simpl; try rewrite filter_app; simpl.
  - exact Hm.
  - rewrite Hr, app_nil_r. exact Hm.
  - assert (Hr' : ScrapedImage.is_meaningful
                    (if truthy p then ScrapedImage.set_screenshot_path p r
                     else r) = true) by (destruct (truthy p); exact Hr).
    rewrite Hr'. now rewrite Hm.
Qed.

(** X9: a page yields one record for each [img] element whose locator is
    not empty, in document order: the locators of its records are the
    non-empty [src] attributes of the elements, and every record carries
    the address of the page. *)
Theorem one_record_per_located_image (cfg : config) (w : world)
    (c : context) (url : string)
    (meaningful_images all_images : list ScrapedImage.t)
    (svgs : list ScrapedSVG.t) (t : list event) :
  extract_images cfg w c url
    = (Ok (Triple meaningful_images all_images svgs), t) ->
  exists images,
    Page.query_selector_all (web w url) "img" = Ok images /\
    map ScrapedImage.src all_images = flat_map locator images /\
    Forall (fun r => ScrapedImage.url r = Page.url (web w url)) all_images.
Proof.
  intros H.
  destruct (extract_images_inv _ _ _ _ _ _ _ _ H)
    as (images & t1 & t2 & Hq & Hloop & _).
  exists images. split; [exact Hq|].
  apply (classify_loop_inv cfg w (web w url)
           (fun seen a _ =>
              map ScrapedImage.src a = flat_map locator seen /\
              Forall (fun r => ScrapedImage.url r = Page.url (web w url)) a))
    in Hloop; [exact Hloop | split; [reflexivity|constructor] |].
  intros seen image a m lists' t0 [Hsrc Hurl] Hone.
  apply classify_one_inv in Hone.
  rewrite flat_map_app. simpl. rewrite app_nil_r.
  destruct Hone as [[Hn ->] | [(r & Hr & _ & ->) | (r & p & Hr & _ & _ & ->)]];
    simpl.
  - rewrite (classifier_none_no_locator _ _ Hn), app_nil_r. auto.
  - destruct (classifier_some_locator _ _ _ Hr) as (-> & _ & Hu).
    rewrite map_app, Hsrc. split; [reflexivity|].
    apply Forall_app. split; [exact Hurl|]. constructor; [exact Hu|constructor].
  - destruct (classifier_some_locator _ _ _ Hr) as (-> & _ & Hu).
    rewrite map_app, Hsrc. split; [destruct (truthy p); reflexivity|].
    apply Forall_app. split; [exact Hurl|].
    constructor; [destruct (truthy p); exact Hu|constructor].
Qed.

(** X10: a record carries a screenshot path only if it is meaningful, and
    the path is then that of a file of the screenshot directory named
    after the record's locator and a position below the number of
    meaningful images of the page. *)
Theorem screenshot_only_for_meaningful (cfg : config) (w : world)
    (c : context) (url : string)
    (meaningful_images all_images : list ScrapedImage.t)
    (svgs : list ScrapedSVG.t) (t : list event) :
  extract_images cfg w c url
    = (Ok (Triple meaningful_images all_images svgs), t) ->
  forall r p, In r all_images -> ScrapedImage.screenshot_path r = Some p ->
    ScrapedImage.is_meaningful r = true /\
    exists k, (k < List.length meaningful_images)%nat /\
      p = path_join (SCREENSHOT_DIR cfg)
            (screenshot_filename (ScrapedImage.src r) k).
Proof.
  intros H.
  destruct (extract_images_inv _ _ _ _ _ _ _ _ H)
    as (images & t1 & t2 & _ & Hloop & _).
  refine (classify_loop_inv cfg w (web w url)
           (fun _ a m =>
              forall r p, In r a -> ScrapedImage.screenshot_path r = Some p ->
                ScrapedImage.is_meaningful r = true /\
                exists k, (k < List.length m)%nat /\
                  p = path_join (SCREENSHOT_DIR cfg)
                        (screenshot_filename (ScrapedImage.src r) k))
           _ _ images all_images meaningful_images t1 Hloop);
    [intros r p [] |].
  intros seen image a m lists' t0 Hinv Hone.
  apply classify_one_inv in Hone.
  destruct Hone as [[_ ->] | [(r & Hr & _ & ->) | (r & p & Hr & Hm & Hp & ->)]];
    simpl; [exact Hinv | |]; intros r0 p0 Hin Hpath;
    apply in_app_or in Hin; destruct Hin as [Hin | [<- | []]].
  - exact (Hinv r0 p0 Hin Hpath).
  - destruct (classifier_some_locator _ _ _ Hr) as (_ & Hnone & _).
    congruence.
  - destruct (Hinv r0 p0 Hin Hpath) as (Hm0 & k & Hk & Hp0).
    split; [exact Hm0|]. exists k. rewrite length_app. simpl.
    split; [lia | exact Hp0].
  - destruct (classifier_some_locator _ _ _ Hr) as (_ & Hnone & _).
    destruct (truthy p) eqn:Htr; [|congruence].
    simpl in Hpath. split; [exact Hm|].
    exists (List.length m). rewrite length_app. simpl. split; [lia|].
    pose proof (save_image_screenshot_never_raises cfg w (web w url) r
                  (List.length m)) as Hsave.
    cbv zeta in Hsave. rewrite Hp in Hsave.
    destruct Hsave as [Hs | [Hs _]]; inversion Hs; subst; simpl in *;
      congruence.
Qed.


(* ================================================================== *)
(** * Vector graphics: errors, order and dimensions *)

Lemma try_except_ret_returns {A : Type} (m : M A) (x : A) :
  exists a t, try_except m (fun _ => ret x) = (Ok a, t).
Proof.
  unfold try_except, ret. destruct m as [[a|e] t]; eauto.
Qed.

Lemma for_enumerate_returns {A St : Type} (body : nat -> A -> St -> M St)
    (l : list A) :
  (forall i x s, exists s' t, body i x s = (Ok s', t)) ->
  forall i s, exists s' t, for_enumerate body i l s = (Ok s', t).
Proof.
  intros Hb. induction l as [|x l IH]; intros i s; simpl.
  - unfold ret. eauto.
  - destruct (Hb i x s) as (s1 & t1 & H1).
    destruct (IH (S i) s1) as (s2 & t2 & H2).
    unfold bind. rewrite H1, H2. eauto.
Qed.

Lemma for_enumerate_grows {A St : Type} (size : St -> nat)
    (body : nat -> A -> St -> M St) (l : list A) :
  (forall i x s s' t, body i x s = (Ok s', t) -> (size s' <= S (size s))%nat) ->
  forall i s s' t,
    for_enumerate body i l s = (Ok s', t) ->
    (size s' <= size s + List.length l)%nat.
Proof.
  intros Hb. induction l as [|x l IH]; intros i s s' t H; simpl in *.
  - apply ret_ok in H. destruct H as [-> _]. lia.
  - apply bind_ok in H. destruct H as (s1 & t1 & t2 & H1 & H2 & _).
    apply Hb in H1. apply IH in H2. lia.
Qed.

(** Each branch of [extract_svgs] leaves the list as it is or appends one
    record of its kind. *)
Lemma inline_svg_appends (cfg : config) (page : Page.t) (i : nat)
    (svg : Element.t) (svgs svgs' : list ScrapedSVG.t) (t : list event) :
  inline_svg cfg page i svg svgs = (Ok svgs', t) ->
  svgs' = svgs \/
  exists o, svgs' = svgs ++ [o] /\ ScrapedSVG.is_inline o = true.
Proof.
  intros H. unfold inline_svg in H. apply try_except_ok in H.
  destruct H as [H | (e & t1 & t2 & _ & H & _)];
    [|apply ret_ok in H; destruct H as [-> _]; auto].
  apply bind_ok in H. destruct H as (w0 & t1 & t2 & _ & H & _).
  apply bind_ok in H. destruct H as (h0 & t3 & t4 & _ & H & _).
  apply bind_ok in H. destruct H as (width & t5 & t6 & _ & H & _).
  apply bind_ok in H. destruct H as (height & t7 & t8 & _ & H & _).
  apply bind_ok in H. destruct H as (content & t9 & t10 & _ & H & _).
  apply bind_ok in H. destruct H as (g & t11 & t12 & _ & H & _).
  apply bind_ok in H. destruct H as (svg_obj & t13 & t14 & Hshot & H & _).
  apply ret_ok in H. destruct H as [-> _].
  right. exists svg_obj. split; [reflexivity|].
  apply svg_screenshot_step in Hshot. destruct Hshot as [-> | ->]; reflexivity.
Qed.

Lemma svg_image_appends (cfg : config) (page : Page.t) (i : nat)
    (img : Element.t) (svgs svgs' : list ScrapedSVG.t) (t : list event) :
  svg_image cfg page i img svgs = (Ok svgs', t) ->
  svgs' = svgs \/
  exists o, svgs' = svgs ++ [o] /\ ScrapedSVG.is_inline o = false.
Proof.
  intros H. unfold svg_image in H. apply try_except_ok in H.
  destruct H as [H | (e & t1 & t2 & _ & H & _)];
    [|apply ret_ok in H; destruct H as [-> _]; auto].
  apply bind_ok in H. destruct H as (src & t1 & t2 & _ & H & _).
  destruct (truthy src) eqn:Hsrc; cbn [negb] in H;
    [|apply ret_ok in H; destruct H as [-> _]; auto].
  apply bind_ok in H. destruct H as (w0 & t3 & t4 & _ & H & _).
  apply bind_ok in H. destruct H as (h0 & t5 & t6 & _ & H & _).
  apply bind_ok in H. destruct H as (width & t7 & t8 & _ & H & _).
  apply bind_ok in H. destruct H as (height & t9 & t10 & _ & H & _).
  destruct (is_header_footer_logo img) as [[is_header is_footer] is_logo].
  apply bind_ok in H. destruct H as (svg_obj & t11 & t12 & Hshot & H & _).
  apply ret_ok in H. destruct H as [-> _].
  right. exists svg_obj. split; [reflexivity|].
  apply svg_screenshot_step in Hshot. destruct Hshot as [-> | ->]; reflexivity.
Qed.

Lemma svg_object_appends (page : Page.t) (i : nat)
    (obj : Element.t) (svgs svgs' : list ScrapedSVG.t) (t : list event) :
  svg_object page i obj svgs = (Ok svgs', t) ->
  svgs' = svgs \/
  exists o, svgs' = svgs ++ [o] /\ ScrapedSVG.is_inline o = false.
Proof.
  intros H. unfold svg_object in H. apply try_except_ok in H.
  destruct H as [H | (e & t1 & t2 & _ & H & _)];
    [|apply ret_ok in H; destruct H as [-> _]; auto].
  apply bind_ok in H. destruct H as (data & t1 & t2 & _ & H & _).
  apply bind_ok in H. destruct H as (src & t3 & t4 & _ & H & _).
  destruct (truthy src) eqn:Hsrc; cbn [negb] in H;
    apply ret_ok in H; destruct H as [-> _]; [|auto].
  right. eexists. split; reflexivity.
Qed.

(** X12: errors on single elements never abort [extract_svgs]: when the
    three element queries return, it returns, with at most one record per
    element found. *)
Theorem extract_svgs_returns (cfg : config) (page : Page.t)
    (inline_svgs svg_images svg_objects : list Element.t) :
  Page.query_selector_all page "svg" = Ok inline_svgs ->
  Page.query_selector_all page "img[src$='.svg']" = Ok svg_images ->
  Page.query_selector_all page
    "object[type='image/svg+xml'], embed[type='image/svg+xml']"
    = Ok svg_objects ->
  exists svgs t,
    extract_svgs cfg page = (Ok svgs, t) /\
    (List.length svgs <= List.length inline_svgs + List.length svg_images
                         + List.length svg_objects)%nat.
Proof.
  intros H1 H2 H3. unfold extract_svgs. rewrite H1, H2, H3.
  destruct (for_enumerate_returns (inline_svg cfg page) inline_svgs
              (fun i x s => try_except_ret_returns _ s) 0%nat [])
    as (s1 & t1 & E1).
  destruct (for_enumerate_returns (svg_image cfg page) svg_images
              (fun i x s => try_except_ret_returns _ s) 0%nat s1)
    as (s2 & t2 & E2).
  destruct (for_enumerate_returns (svg_object page) svg_objects
              (fun i x s => try_except_ret_returns _ s) 0%nat s2)
    as (s3 & t3 & E3).
  unfold bind, lift, ret. rewrite E1, E2, E3.
  exists s3. eexists. split; [reflexivity|].
  apply (for_enumerate_grows (@List.length ScrapedSVG.t)) in E1, E2, E3.
  - simpl in E1. lia.
  - intros i x s s' t H. apply svg_object_appends in H.
    destruct H as [-> | (o & -> & _)]; [lia|rewrite length_app; simpl; lia].
  - intros i x s s' t H. apply svg_image_appends in H.
    destruct H as [-> | (o & -> & _)]; [lia|rewrite length_app; simpl; lia].
  - intros i x s s' t H. apply inline_svg_appends in H.
    destruct H as [-> | (o & -> & _)]; [lia|rewrite length_app; simpl; lia].
Qed.

(** X13: in the list [extract_svgs] returns, the inline records come
    first: no inline record follows a referenced one. *)
Theorem inline_svgs_come_first (cfg : config) (page : Page.t)
    (svgs : list ScrapedSVG.t) (t : list event) :
  extract_svgs cfg page = (Ok svgs, t) ->
  exists inline referenced,
    svgs = inline ++ referenced /\
    Forall (fun r => ScrapedSVG.is_inline r = true) inline /\
    Forall (fun r => ScrapedSVG.is_inline r = false) referenced.
Proof.
  intros H. unfold extract_svgs in H.
  apply bind_ok in H. destruct H as (l1 & t1 & t2 & _ & H & _).
  apply bind_ok in H. destruct H as (s1 & t3 & t4 & H1 & H & _).
  apply bind_ok in H. destruct H as (l2 & t5 & t6 & _ & H & _).
  apply bind_ok in H. destruct H as (s2 & t7 & t8 & H2 & H & _).
  apply bind_ok in H. destruct H as (l3 & t9 & t10 & _ & H & _).
  apply bind_ok in H. destruct H as (s3 & t11 & t12 & H3 & H & _).
  apply ret_ok in H. destruct H as [-> _].
  apply (for_enumerate_inv
           (Forall (fun r => ScrapedSVG.is_inline r = true))) in H1;
    [| |constructor].
  2:{ intros i x s s' t0 _ Hs Hb. apply inline_svg_appends in Hb.
      destruct Hb as [-> | (o & -> & Ho)]; [exact Hs|].
      apply Forall_app. split; [exact Hs|]. constructor; [exact Ho|constructor]. }
  set (P := fun s : list ScrapedSVG.t =>
              exists referenced,
                s = s1 ++ referenced /\
                Forall (fun r => ScrapedSVG.is_inline r = false) referenced).
  assert (Hstep : forall s o, P s -> ScrapedSVG.is_inline o = false ->
                              P (s ++ [o])).
  { intros s o (l & -> & Hl) Ho. exists (l ++ [o]).
    split; [now rewrite app_assoc|].
    apply Forall_app. split; [exact Hl|]. constructor; [exact Ho|constructor]. }
  apply (for_enumerate_inv P) in H2.
  - apply (for_enumerate_inv P) in H3; [|intros i x s s' t0 _ Hs Hb|exact H2].
    + destruct H3 as (l & -> & Hl). exists s1, l. auto.
    + apply svg_object_appends in Hb.
      destruct Hb as [-> | (o & -> & Ho)]; [exact Hs | now apply Hstep].
  - intros i x s s' t0 _ Hs Hb. apply svg_image_appends in Hb.
    destruct Hb as [-> | (o & -> & Ho)]; [exact Hs | now apply Hstep].
  - exists []. split; [now rewrite app_nil_r | constructor].
Qed.

Lemma In_drop_while (p : ascii -> bool) (c : ascii) (l : list ascii) :
  In c (drop_while p l) -> In c l.
Proof.
  induction l as [|d l IH]; simpl; [auto|].
  destruct (p d); [intros H; right; auto | auto].
Qed.

Lemma In_strip_with (p : ascii -> bool) (c : ascii) (l : list ascii) :
  In c (strip_with p l) -> In c l.
Proof.
  unfold strip_with. intros H.
  apply in_rev, In_drop_while, in_rev, In_drop_while in H. exact H.
Qed.

Lemma forallb_string_In (p : ascii -> bool) (s : string) (c : ascii) :
  forallb_string p s = true -> In c (list_ascii_of_string s) -> p c = true.
Proof.
  induction s as [|d s IH]; simpl; [intros _ []|].
  intros H [<- | Hin]; apply andb_true_iff in H; destruct H; auto.
Qed.

Lemma digit_value_nonneg (c : ascii) :
  is_ascii_digit c = true -> 0 <= digit_value c.
Proof.
  unfold is_ascii_digit, in_range, digit_value. intros H.
  apply andb_true_iff in H. destruct H as [H _].
  apply Nat.leb_le in H. lia.
Qed.

Lemma scan_digits_nonneg (l : list ascii) :
  forall st acc k n k',
    0 <= acc -> scan_digits l st acc k = Some (n, k') -> 0 <= n.
Proof.
  induction l as [|c l IH]; intros st acc k n k' Hacc H;
    cbn [scan_digits] in H.
  - destruct st; inversion H; subst; exact Hacc.
  - destruct (is_ascii_digit c) eqn:Hc.
    + apply IH in H; [exact H|].
      pose proof (digit_value_nonneg c Hc). lia.
    + destruct (Ascii.eqb c "_"); [|discriminate].
      destruct st; try discriminate. now apply IH in H.
Qed.

(** On a string that passes [isdigit()], [int()] yields no negative
    number. *)
Lemma py_int_isdigit_nonneg (s : string) (n : Z) :
  isdigit s = true -> py_int s = Ok n -> 0 <= n.
Proof.
  intros Hd. assert (Hall : forallb_string py_isdigit_char s = true).
  { destruct s; [discriminate|exact Hd]. }
  unfold py_int.
  destruct (strip_with py_int_space (list_ascii_of_string s)) as [|c r] eqn:Eb.
  - simpl. discriminate.
  - assert (Hc : py_isdigit_char c = true).
    { apply (forallb_string_In _ s); [exact Hall|].
      apply (In_strip_with py_int_space). rewrite Eb. left. reflexivity. }
    assert (Hm : Ascii.eqb c "-" = false /\ Ascii.eqb c "+" = false).
    { clear - Hc. destruct c as [[] [] [] [] [] [] [] []];
        try discriminate Hc; split; reflexivity. }
    destruct Hm as [-> ->].
    destruct (scan_digits (c :: r) AtStart 0 0) as [[m k]|] eqn:Es;
      [|discriminate].
    destruct (Nat.ltb int_max_str_digits k); [discriminate|].
    intros H. inversion H; subst.
    apply (scan_digits_nonneg _ _ _ _ _ _ (Z.le_refl 0) Es).
Qed.

Lemma svg_dimension_nonneg (v : option string) (n : Z) :
  svg_dimension v = Ok (Some n) ->
  0 <= n /\ exists s, v = Some s /\ isdigit s = true.
Proof.
  unfold svg_dimension. destruct v as [s|]; [|discriminate].
  destruct (truthy (Some s) && isdigit s)%bool eqn:Hd; [|discriminate].
  apply andb_true_iff in Hd. destruct Hd as [_ Hd].
  destruct (py_int s) as [m|e] eqn:Em; simpl; [|discriminate].
  intros H. inversion H; subst.
  split; [exact (py_int_isdigit_nonneg s n Hd Em) | eauto].
Qed.

Lemma dimensions_ok_screenshot (r : ScrapedSVG.t) (p : option string) :
  dimensions_ok r -> dimensions_ok (ScrapedSVG.set_screenshot_path p r).
Proof. unfold dimensions_ok. simpl. auto. Qed.

Lemma dimensions_ok_build (url : string) (inline : bool)
    (content src : option string) (width height : option Z)
    (dw dh : option string) (h f : option bool) (l : bool) :
  svg_dimension dw = Ok width -> svg_dimension dh = Ok height ->
  dimensions_ok
    (ScrapedSVG.mk url inline content src width height h f l None).
Proof.
  intros Hw Hh. split; simpl; intros n ->.
  - exact (proj1 (svg_dimension_nonneg _ _ Hw)).
  - exact (proj1 (svg_dimension_nonneg _ _ Hh)).
Qed.

Lemma inline_svg_dimensions (cfg : config) (page : Page.t) (i : nat)
    (svg : Element.t) (svgs svgs' : list ScrapedSVG.t) (t : list event) :
  Forall dimensions_ok svgs ->
  inline_svg cfg page i svg svgs = (Ok svgs', t) ->
  Forall dimensions_ok svgs'.
Proof.
  intros Hs H. unfold inline_svg in H. apply try_except_ok in H.
  destruct H as [H | (e & t1 & t2 & _ & H & _)];
    [|apply ret_ok in H; destruct H as [-> _]; exact Hs].
  apply bind_ok in H. destruct H as (w0 & t1 & t2 & _ & H & _).
  apply bind_ok in H. destruct H as (h0 & t3 & t4 & _ & H & _).
  apply bind_ok in H. destruct H as (width & t5 & t6 & Hw & H & _).
  apply bind_ok in H. destruct H as (height & t7 & t8 & Hh & H & _).
  apply lift_ok in Hw, Hh. destruct Hw as [Hw _], Hh as [Hh _].
  apply bind_ok in H. destruct H as (content & t9 & t10 & _ & H & _).
  apply bind_ok in H. destruct H as (g & t11 & t12 & _ & H & _).
  apply bind_ok in H. destruct H as (svg_obj & t13 & t14 & Hshot & H & _).
  apply ret_ok in H. destruct H as [-> _].
  apply Forall_app. split; [exact Hs|]. constructor; [|constructor].
  apply svg_screenshot_step in Hshot.
  destruct Hshot as [-> | ->]; [|apply dimensions_ok_screenshot];
    exact (dimensions_ok_build _ _ _ _ _ _ _ _ _ _ _ Hw Hh).
Qed.

Lemma svg_image_dimensions (cfg : config) (page : Page.t) (i : nat)
    (img : Element.t) (svgs svgs' : list ScrapedSVG.t) (t : list event) :
  Forall dimensions_ok svgs ->
  svg_image cfg page i img svgs = (Ok svgs', t) ->
  Forall dimensions_ok svgs'.
Proof.
  intros Hs H. unfold svg_image in H. apply try_except_ok in H.
  destruct H as [H | (e & t1 & t2 & _ & H & _)];
    [|apply ret_ok in H; destruct H as [-> _]; exact Hs].
  apply bind_ok in H. destruct H as (src & t1 & t2 & _ & H & _).
  destruct (truthy src) eqn:Hsrc; cbn [negb] in H;
    [|apply ret_ok in H; destruct H as [-> _]; exact Hs].
  apply bind_ok in H. destruct H as (w0 & t3 & t4 & _ & H & _).
  apply bind_ok in H. destruct H as (h0 & t5 & t6 & _ & H & _).
  apply bind_ok in H. destruct H as (width & t7 & t8 & Hw & H & _).
  apply bind_ok in H. destruct H as (height & t9 & t10 & Hh & H & _).
  apply lift_ok in Hw, Hh. destruct Hw as [Hw _], Hh as [Hh _].
  destruct (is_header_footer_logo img) as [[is_header is_footer] is_logo].
  apply bind_ok in H. destruct H as (svg_obj & t11 & t12 & Hshot & H & _).
  apply ret_ok in H. destruct H as [-> _].
  apply Forall_app. split; [exact Hs|]. constructor; [|constructor].
  apply svg_screenshot_step in Hshot.
  destruct Hshot as [-> | ->]; [|apply dimensions_ok_screenshot];
    exact (dimensions_ok_build _ _ _ _ _ _ _ _ _ _ _ Hw Hh).
Qed.

Lemma svg_object_dimensions (page : Page.t) (i : nat)
    (obj : Element.t) (svgs svgs' : list ScrapedSVG.t) (t : list event) :
  Forall dimensions_ok svgs ->
  svg_object page i obj svgs = (Ok svgs', t) ->
  Forall dimensions_ok svgs'.
Proof.
  intros Hs H. unfold svg_object in H. apply try_except_ok in H.
  destruct H as [H | (e & t1 & t2 & _ & H & _)];
    [|apply ret_ok in H; destruct H as [-> _]; exact Hs].
  apply bind_ok in H. destruct H as (data & t1 & t2 & _ & H & _).
  apply bind_ok in H. destruct H as (src & t3 & t4 & _ & H & _).
  destruct (truthy src) eqn:Hsrc; cbn [negb] in H;
    apply ret_ok in H; destruct H as [-> _]; [|exact Hs].
  apply Forall_app. split; [exact Hs|]. constructor; [|constructor].
  split; simpl; discriminate.
Qed.

(** X14: no vector-graphic record carries a negative width or height: a
    dimension is recorded only for an attribute that passes [isdigit()],
    and such a string has no sign. *)
Theorem svg_dimensions_not_negative (cfg : config) (page : Page.t)
    (svgs : list ScrapedSVG.t) (t : list event) :
  extract_svgs cfg page = (Ok svgs, t) ->
  forall r, In r svgs ->
    (forall n, ScrapedSVG.width r = Some n -> 0 <= n) /\
    (forall n, ScrapedSVG.height r = Some n -> 0 <= n).
Proof.
  intros H. unfold extract_svgs in H.
  apply bind_ok in H. destruct H as (l1 & t1 & t2 & _ & H & _).
  apply bind_ok in H. destruct H as (s1 & t3 & t4 & H1 & H & _).
  apply bind_ok in H. destruct H as (l2 & t5 & t6 & _ & H & _).
  apply bind_ok in H. destruct H as (s2 & t7 & t8 & H2 & H & _).
  apply bind_ok in H. destruct H as (l3 & t9 & t10 & _ & H & _).
  apply bind_ok in H. destruct H as (s3 & t11 & t12 & H3 & H & _).
  apply ret_ok in H. destruct H as [-> _].
  apply (for_enumerate_inv (Forall dimensions_ok)) in H1;
    [|intros i x s s' t0 _; apply inline_svg_dimensions | constructor].
  apply (for_enumerate_inv (Forall dimensions_ok)) in H2;
    [|intros i x s s' t0 _; apply svg_image_dimensions | exact H1].
  apply (for_enumerate_inv (Forall dimensions_ok)) in H3;
    [|intros i x s s' t0 _; apply svg_object_dimensions | exact H2].
  intros r Hin. rewrite Forall_forall in H3. exact (H3 r Hin).
Qed.

(** X15: [isdigit()] accepts digits that [int()] rejects (superscripts);
    an inline vector graphic whose width attribute is such a string is
    dropped: the [ValueError] is caught by the handler of its element, no
    record is appended and no screenshot is taken. *)
Theorem unparsable_width_drops_inline_svg (cfg : config) (page : Page.t)
    (i : nat) (svg : Element.t) (svgs : list ScrapedSVG.t)
    (width : string) (height : option string) (e : exn) :
  Element.get_attribute svg "width" = Ok (Some width) ->
  Element.get_attribute svg "height" = Ok height ->
  isdigit width = true ->
  py_int width = Raise e ->
  inline_svg cfg page i svg svgs = (Ok svgs, []).
Proof.
  intros Hw Hh Hd He. unfold inline_svg, try_except, bind, lift, ret.
  rewrite Hw, Hh. unfold svg_dimension.
  destruct width as [|c s]; [discriminate Hd|].
  cbn [truthy andb]. rewrite Hd, He. reflexivity.
Qed.

(* ================================================================== *)
(** * Calls a computation never makes *)

Section Never.

Variable p : event -> bool.

Lemma never_ret {A : Type} (a : A) : never p (ret a).
Proof. reflexivity. Qed.

Lemma never_raise {A : Type} (e : exn) : never p (@raise A e).
Proof. reflexivity. Qed.

Lemma never_lift {A : Type} (r : result A) : never p (lift r).
Proof. reflexivity. Qed.

Lemma never_call {A : Type} (ev : event) (r : result A) :
  p ev = false -> never p (call ev r).
Proof. unfold never, call. simpl. now intros ->. Qed.

Lemma never_bind {A B : Type} (m : M A) (k : A -> M B) :
  never p m -> (forall a, never p (k a)) -> never p (bind m k).
Proof.
  unfold never. intros Hm Hk. rewrite snd_bind, filter_app, Hm.
  destruct (fst m); [apply Hk | reflexivity].
Qed.

Lemma never_try_except {A : Type} (m : M A) (h : exn -> M A) :
  never p m -> (forall e, never p (h e)) -> never p (try_except m h).
Proof.
  unfold never. intros Hm Hh. rewrite snd_try_except, filter_app, Hm.
  destruct (fst m); [reflexivity | apply Hh].
Qed.

Lemma never_try_finally {A : Type} (m : M A) (c : M unit) :
  never p m -> never p c -> never p (try_finally m c).
Proof.
  unfold never. intros Hm Hc. now rewrite snd_try_finally, filter_app, Hm, Hc.
Qed.

Lemma never_for_enumerate {A St : Type} (body : nat -> A -> St -> M St)
    (l : list A) :
  (forall i x s, never p (body i x s)) ->
  forall i s, never p (for_enumerate body i l s).
Proof.
  intros Hb. induction l as [|x l IH]; intros i s; simpl.
  - apply never_ret.
  - apply never_bind; [apply Hb | intros s'; apply IH].
Qed.

End Never.

Ltac never_step :=
  first
    [ apply never_ret
    | apply never_raise
    | apply never_lift
    | apply never_call; reflexivity
    | apply never_bind; [|intros]
    | apply never_try_except; [|intros]
    | apply never_try_finally
    | apply never_for_enumerate; intros
    | match goal with
      | |- never _ (if ?b then _ else _) => destruct b
      | |- never _ (match ?x with _ => _ end) => destruct x
      end ].

(** A page neither writes an output file, nor sleeps, nor opens a
    context, nor logs in. *)
Lemma extract_images_never (p : event -> bool) (cfg : config) (w : world)
    (c : context) (url : string) :
  p NewPage = false -> p ClosePage = false ->
  (forall u t, p (Goto u t) = false) ->
  (forall s, p (WaitForLoadState s) = false) ->
  (forall s, p (Makedirs s) = false) ->
  (forall s, p (ElementScreenshot s) = false) ->
  (forall s, p (PageScreenshot s) = false) ->
  never p (extract_images cfg w c url).
Proof.
  intros H1 H2 H3 H4 H5 H6 H7.
  unfold extract_images, classify_one, save_image_screenshot, extract_svgs,
    inline_svg, svg_image, svg_object.
  repeat first [ apply never_call; auto | never_step ].
Qed.

Lemma crawl_loop_never (p : event -> bool) (cfg : config) (w : world)
    (c : context) (links : list string) :
  (forall url, never p (extract_images cfg w c url)) ->
  (forall n, p (Sleep n) = false) ->
  forall i acc, never p (crawl_loop cfg w c i links acc).
Proof.
  intros Hpage Hsleep.
  induction links as [|link rest IH]; intros i acc.
  - apply never_ret.
  - rewrite crawl_loop_cons. destruct (Nat.ltb i 10); [|apply never_ret].
    apply never_bind; [apply Hpage|]. intros r.
    apply never_bind; [destruct r; [apply never_ret|apply never_raise]|].
    intros [[m a] s].
    apply never_bind; [apply never_call, Hsleep|]. intros _. apply IH.
Qed.

(** What the loop has gathered when it ends. *)
Lemma crawl_loop_gathers (cfg : config) (w : world) (links : list string) :
  forall i acc acc',
    fst (crawl_loop cfg w (Context (Some (AUTH_STATE_PATH cfg))) i links acc)
      = Ok acc' ->
    let '(m, a, s) := gathered cfg w (firstn (10 - i) links) in
    all_meaningful_images acc' = all_meaningful_images acc ++ m /\
    all_images acc' = all_images acc ++ a /\
    all_svgs acc' = all_svgs acc ++ s.
Proof.
  unfold gathered.
  induction links as [|link rest IH]; intros i acc acc' H.
  - simpl in H. inversion H; subst. rewrite firstn_nil. simpl.
    now rewrite !app_nil_r.
  - rewrite crawl_loop_cons in H. destruct (Nat.ltb i 10) eqn:Hi.
    + apply Nat.ltb_lt in Hi.
      replace (10 - i)%nat with (S (10 - S i)) by lia.
      rewrite fst_bind in H.
      destruct (extract_images cfg w (Context (Some (AUTH_STATE_PATH cfg)))
                  link) as [[[m a s|]|e] t] eqn:E;
        cbn [fst] in H; try discriminate H.
      unfold unpack3 in H. rewrite fst_bind in H. cbn [ret fst] in H.
      rewrite fst_bind in H. cbn [call fst] in H.
      apply IH in H. cbn [all_meaningful_images all_images all_svgs] in H.
      set (k := (10 - S i)%nat) in *. clearbody k.
      cbn [firstn flat_map]. rewrite E. cbn [fst snd page_lists].
      destruct H as (-> & -> & ->). now rewrite <- !app_assoc.
    + apply Nat.ltb_ge in Hi. replace (10 - i)%nat with 0%nat by lia.
      simpl in H. inversion H; subst. simpl. now rewrite !app_nil_r.
Qed.

(** X16: a crawl that returns has written each output file once, after
    the last page: the meaningful images, all images and the vector
    graphics of the first ten links, page after page in the order of the
    links; the list it returns is the one written to the first file. *)
Theorem crawl_writes_gathered_lists (cfg : config) (w : world)
    (links : list string) (returned : list ScrapedImage.t) (t : list event) :
  crawl_links cfg w links = (Ok returned, t) ->
  let '(m, a, s) := gathered cfg w (firstn 10 links) in
  returned = m /\
  filter is_dump t =
    [DumpImages (MEANINGFUL_IMAGE_FILE cfg) m;
     DumpImages (ALL_IMAGES_FILE cfg) a;
     DumpSVGs (SVGS_FILE cfg) s] /\
  exists t0,
    t = t0 ++ [DumpImages (MEANINGFUL_IMAGE_FILE cfg) m;
               DumpImages (ALL_IMAGES_FILE cfg) a;
               DumpSVGs (SVGS_FILE cfg) s;
               CloseBrowser].
Proof.
  intros H. unfold crawl_links in H.
  pose proof (crawl_loop_gathers cfg w links 0
                {| all_meaningful_images := []; all_images := [];
                   all_svgs := [] |}) as Hg.
  pose proof (crawl_loop_never is_dump cfg w
                (Context (Some (AUTH_STATE_PATH cfg))) links
                (fun url => extract_images_never is_dump cfg w _ url
                   eq_refl eq_refl (fun _ _ => eq_refl) (fun _ => eq_refl)
                   (fun _ => eq_refl) (fun _ => eq_refl) (fun _ => eq_refl))
                (fun _ => eq_refl) 0%nat
                {| all_meaningful_images := []; all_images := [];
                   all_svgs := [] |}) as Hn.
  unfold never in Hn.
  destruct (crawl_loop cfg w (Context (Some (AUTH_STATE_PATH cfg))) 0 links
              {| all_meaningful_images := []; all_images := [];
                 all_svgs := [] |}) as [[acc|e] tl];
    unfold try_finally, bind, call, ret in H; simpl in H;
    inversion H; subst; clear H.
  specialize (Hg acc eq_refl). change (10 - 0)%nat with 10%nat in Hg.
  destruct (gathered cfg w (firstn 10 links)) as [[m a] s].
  simpl in Hg, Hn. destruct Hg as (-> & -> & ->).
  split; [reflexivity|]. split.
  - cbn [filter is_dump]. rewrite !filter_app, Hn. reflexivity.
  - exists (Launch (HEADLESS cfg) (TIMEOUT cfg)
            :: NewContext (Some (AUTH_STATE_PATH cfg))
            :: Makedirs (SCREENSHOT_DIR cfg) :: tl).
    simpl. rewrite <- app_assoc. reflexivity.
Qed.


Lemma crawl_loop_sleeps (cfg : config) (w : world) (c : context)
    (links : list string) :
  forall i acc acc',
    fst (crawl_loop cfg w c i links acc) = Ok acc' ->
    filter is_sleep (snd (crawl_loop cfg w c i links acc))
    = repeat (Sleep 1) (List.length (firstn (10 - i) links)).
Proof.
  induction links as [|link rest IH]; intros i acc acc' H.
  - rewrite firstn_nil. reflexivity.
  - rewrite crawl_loop_cons in *. destruct (Nat.ltb i 10) eqn:Hi.
    + apply Nat.ltb_lt in Hi.
      replace (10 - i)%nat with (S (10 - S i)) by lia.
      pose proof (extract_images_never is_sleep cfg w c link
                    eq_refl eq_refl (fun _ _ => eq_refl) (fun _ => eq_refl)
                    (fun _ => eq_refl) (fun _ => eq_refl) (fun _ => eq_refl))
        as Hn.
      unfold never in Hn.
      rewrite fst_bind in H. rewrite snd_bind, filter_app, Hn.
      destruct (fst (extract_images cfg w c link)) as [[m a s|]|e];
        try discriminate H.
      unfold unpack3 in *. rewrite fst_bind in H. rewrite snd_bind.
      cbn [ret fst snd] in *.
      rewrite fst_bind in H. rewrite snd_bind. cbn [call fst snd] in *.
      set (k := (10 - S i)%nat) in *.
      cbn [firstn List.length repeat app filter is_sleep].
      f_equal. exact (IH (S i) _ acc' H).
    + apply Nat.ltb_ge in Hi. replace (10 - i)%nat with 0%nat by lia.
      reflexivity.
Qed.

(** X18: a crawl that returns has paused for one second once per page it
    processed, that is min(10, number of links) times, and never
    otherwise. *)
Theorem crawl_sleeps_once_per_page (cfg : config) (w : world)
    (links : list string) (returned : list ScrapedImage.t) (t : list event) :
  crawl_links cfg w links = (Ok returned, t) ->
  filter is_sleep t = repeat (Sleep 1) (Nat.min 10 (List.length links)).
Proof.
  intros H. unfold crawl_links in H.
  pose proof (crawl_loop_sleeps cfg w (Context (Some (AUTH_STATE_PATH cfg)))
                links 0 {| all_meaningful_images := []; all_images := [];
                           all_svgs := [] |}) as Hs.
  destruct (crawl_loop cfg w (Context (Some (AUTH_STATE_PATH cfg))) 0 links
              {| all_meaningful_images := []; all_images := [];
                 all_svgs := [] |}) as [[acc|e] tl];
    unfold try_finally, bind, call, ret in H; simpl in H;
    inversion H; subst; clear H.
  specialize (Hs acc eq_refl). cbn [snd] in Hs.
  change (10 - 0)%nat with 10%nat in Hs. rewrite length_firstn in Hs.
  cbn [filter is_sleep]. rewrite !filter_app, Hs.
  cbn [filter is_sleep]. now rewrite !app_nil_r.
Qed.

(** X19: a crawl does not log in and does not look at the age of the
    saved session: it opens one context, seeded from the saved state, and
    makes no call of the login flow. *)
Theorem crawl_uses_saved_session (cfg : config) (w : world)
    (links : list string) :
  never is_login_call (crawl_links cfg w links) /\
  filter is_new_context (snd (crawl_links cfg w links))
  = [NewContext (Some (AUTH_STATE_PATH cfg))].
Proof.
  assert (Hloop : forall p,
            p NewPage = false -> p ClosePage = false ->
            (forall u t, p (Goto u t) = false) ->
            (forall s, p (WaitForLoadState s) = false) ->
            (forall s, p (Makedirs s) = false) ->
            (forall s, p (ElementScreenshot s) = false) ->
            (forall s, p (PageScreenshot s) = false) ->
            (forall n, p (Sleep n) = false) ->
            never p (crawl_loop cfg w (Context (Some (AUTH_STATE_PATH cfg)))
                       0 links
                       {| all_meaningful_images := []; all_images := [];
                          all_svgs := [] |})).
  { intros p H1 H2 H3 H4 H5 H6 H7 H8. apply crawl_loop_never; [|exact H8].
    intros url. now apply extract_images_never. }
  split.
  - unfold crawl_links.
    repeat first [ apply Hloop; intros; reflexivity | never_step ].
  - specialize (Hloop is_new_context eq_refl eq_refl (fun _ _ => eq_refl)
                  (fun _ => eq_refl) (fun _ => eq_refl) (fun _ => eq_refl)
                  (fun _ => eq_refl) (fun _ => eq_refl)).
    unfold never in Hloop. unfold crawl_links.
    destruct (crawl_loop cfg w (Context (Some (AUTH_STATE_PATH cfg))) 0 links
                {| all_meaningful_images := []; all_images := [];
                   all_svgs := [] |}) as [[acc|e] tl];
      unfold try_finally, bind, call, ret; cbn [fst snd app] in *;
      cbn [filter is_new_context]; rewrite !filter_app, Hloop; reflexivity.
Qed.

(* ================================================================== *)
(** * Session cache: the other paths *)

(** X20: a cache hit performs no login: when the saved session is younger
    than the limit, the main page loads and shows no login button,
    [authenticate] returns the seeded context after exactly five calls and
    the saved state is not written again. *)
Theorem cache_hit_skips_login (cfg : config) (w : world) (mtime : Q) :
  auth_state_mtime w = Some mtime ->
  (now w - mtime < inject_Z (AUTH_MAX_AGE cfg))%Q ->
  Page.goto (web w (URL cfg)) = Ok tt ->
  Page.login_button (web w (URL cfg)) = Ok false ->
  Page.close (web w (URL cfg)) = Ok tt ->
  authenticate cfg w
  = (Ok (Context (Some (AUTH_STATE_PATH cfg))),
     [Launch (HEADLESS cfg) (TIMEOUT cfg);
      NewContext (Some (AUTH_STATE_PATH cfg));
      NewPage; Goto (URL cfg) None; ClosePage]).
Proof.
  intros Hm Hage Hg Hb Hc.
  unfold authenticate, auth_state_valid. rewrite Hm.
  apply Qltb_lt in Hage. rewrite Hage.
  unfold cached_session, bind, call, lift, ret. rewrite Hg, Hb, Hc.
  reflexivity.
Qed.

(** X21: without a saved session, [authenticate] is the browser launch
    followed by the login flow. *)
Theorem missing_session_logs_in (cfg : config) (w : world) :
  auth_state_mtime w = None ->
  authenticate cfg w =
    (call (Launch (HEADLESS cfg) (TIMEOUT cfg)) (Ok tt) ;; fresh_login cfg w)%M.
Proof.
  intros Hm. unfold authenticate. rewrite (missing_not_valid cfg w Hm).
  unfold bind, call, ret. destruct (fresh_login cfg w) as [r t]. reflexivity.
Qed.

(** X22: a saved session that is young enough but no longer logged in
    (the main page shows the login button) is followed by the login flow:
    the result is that of the login flow, whose calls come after the five
    calls of the validation. *)
Theorem expired_session_logs_in_again (cfg : config) (w : world) (mtime : Q) :
  auth_state_mtime w = Some mtime ->
  (now w - mtime < inject_Z (AUTH_MAX_AGE cfg))%Q ->
  Page.goto (web w (URL cfg)) = Ok tt ->
  Page.login_button (web w (URL cfg)) = Ok true ->
  Page.close (web w (URL cfg)) = Ok tt ->
  authenticate cfg w
  = (fst (fresh_login cfg w),
     [Launch (HEADLESS cfg) (TIMEOUT cfg);
      NewContext (Some (AUTH_STATE_PATH cfg));
      NewPage; Goto (URL cfg) None; ClosePage]
     ++ snd (fresh_login cfg w)).
Proof.
  intros Hm Hage Hg Hb Hc.
  unfold authenticate, auth_state_valid. rewrite Hm.
  apply Qltb_lt in Hage. rewrite Hage.
  unfold cached_session, bind, call, lift, ret. rewrite Hg, Hb, Hc.
  cbn [negb]. destruct (fresh_login cfg w) as [r t]. reflexivity.
Qed.

(** X23: an error while the saved session is being validated is not
    turned into a login: when the navigation to the main page raises,
    [authenticate] raises the same exception after four calls, with no
    login attempted and the browser left open. *)
Theorem validation_error_propagates (cfg : config) (w : world) (mtime : Q)
    (e : exn) :
  auth_state_mtime w = Some mtime ->
  (now w - mtime < inject_Z (AUTH_MAX_AGE cfg))%Q ->
  Page.goto (web w (URL cfg)) = Raise e ->
  authenticate cfg w
  = (Raise e,
     [Launch (HEADLESS cfg) (TIMEOUT cfg);
      NewContext (Some (AUTH_STATE_PATH cfg));
      NewPage; Goto (URL cfg) None]).
Proof.
  intros Hm Hage Hg.
  unfold authenticate, auth_state_valid. rewrite Hm.
  apply Qltb_lt in Hage. rewrite Hage.
  unfold cached_session, bind, call, lift, ret. rewrite Hg. reflexivity.
Qed.



(* ================================================================== *)
(** * The entry point *)

Lemma authenticate_quiet (cfg : config) (w : world) :
  quiet (authenticate cfg w).
Proof.
  unfold authenticate, cached_session, fresh_login. repeat quiet_step.
Qed.

Lemma crawl_one_link_visits (cfg : config) (w : world) (url : string) :
  visited (snd (crawl_links cfg w [url])) = [url].
Proof.
  destruct (crawl_links_visits cfg w [url]) as [-> _].
  rewrite crawl_loop_cons. cbn [Nat.ltb Nat.leb].
  rewrite snd_bind, visited_app, extract_images_visits.
  destruct (fst (extract_images cfg w (Context (Some (AUTH_STATE_PATH cfg)))
                   url)) as [[m a s|]|e]; reflexivity.
Qed.

(** X25: [main] crawls the configured address and nothing else, and only
    after [authenticate] has returned: when [authenticate] raises, [main]
    raises the same exception without any further call. *)
Theorem main_crawls_configured_address (cfg : config) (w : world) :
  (forall c, fst (authenticate cfg w) = Ok c ->
     visited (snd (main cfg w)) = [URL cfg] /\
     fst (main cfg w) = fst (crawl_links cfg w [URL cfg]) /\
     snd (main cfg w)
     = snd (authenticate cfg w) ++ snd (crawl_links cfg w [URL cfg])) /\
  (forall e, fst (authenticate cfg w) = Raise e ->
     main cfg w = (Raise e, snd (authenticate cfg w))).
Proof.
  pose proof (authenticate_quiet cfg w) as Hq. unfold quiet in Hq.
  pose proof (crawl_one_link_visits cfg w (URL cfg)) as Hv.
  unfold main, bind.
  destruct (authenticate cfg w) as [[c|e] t]; simpl in *; split;
    try discriminate.
  - intros _ _. destruct (crawl_links cfg w [URL cfg]) as [r t']. simpl in *.
    rewrite visited_app, Hq, Hv. auto.
  - intros e0 H. inversion H. reflexivity.
Qed.

(* ================================================================== *)
(** * The declared content length *)


(* ================================================================== *)
(** * File names keep their extension *)

Lemma contains_char_append_l (c : ascii) (s1 s2 : string) :
  contains_char c s1 = true -> contains_char c (s1 ++ s2) = true.
Proof.
  induction s1 as [|d s1 IH]; simpl; [discriminate|].
  destruct (Ascii.eqb d c); simpl; auto.
Qed.

Lemma contains_char_append_r (c : ascii) (s1 s2 : string) :
  contains_char c s2 = true -> contains_char c (s1 ++ s2) = true.
Proof.
  intros H. induction s1 as [|d s1 IH]; simpl; [exact H|].
  rewrite IH. apply orb_true_r.
Qed.

Lemma contains_char_filter (p : ascii -> bool) (c : ascii) (s : string) :
  p c = true -> contains_char c s = true ->
  contains_char c (filter_string p s) = true.
Proof.
  intros Hp. induction s as [|d s IH]; simpl; [discriminate|].
  destruct (Ascii.eqb_spec d c) as [->|Hne]; simpl.
  - intros _. rewrite Hp. simpl. now rewrite Ascii.eqb_refl.
  - intros H. destruct (p d); simpl; [|auto].
    destruct (Ascii.eqb_spec d c); [contradiction|]. simpl. auto.
Qed.

Lemma length_filter_string (p : ascii -> bool) (s : string) :
  (String.length (filter_string p s) <= String.length s)%nat.
Proof.
  induction s as [|d s IH]; simpl; [lia|]. destruct (p d); simpl; lia.
Qed.

Lemma length_append (s1 s2 : string) :
  String.length (s1 ++ s2) = (String.length s1 + String.length s2)%nat.
Proof. induction s1 as [|d s1 IH]; simpl; [reflexivity|now rewrite IH]. Qed.

(** X27: a file name that is not cut at 100 characters has an extension:
    it contains a dot, that of the locator's base name or that of the
    [.png] appended when the base name has none. *)
Theorem screenshot_filename_has_extension (image_url : string) (index : nat) :
  (String.length (str index)
   + String.length (basename (before_char "?" image_url)) + 5 <= 100)%nat ->
  contains_char "." (screenshot_filename image_url index) = true.
Proof.
  intros Hlen.
  change (screenshot_filename image_url index) with
    (let filename :=
       (str index ++ "_" ++ basename (before_char "?" image_url))%string in
     let filename :=
       if negb (contains_char "." filename) then (filename ++ ".png")%string
       else filename in
     substring 0 100 (filter_string filename_char filename)).
  cbv zeta.
  set (name := (str index ++ "_" ++ basename (before_char "?" image_url))%string).
  assert (Hname : (String.length name + 4 <= 100)%nat).
  { unfold name. rewrite !length_append. simpl. lia. }
  set (full := if negb (contains_char "." name) then (name ++ ".png")%string
               else name).
  assert (Hdot : contains_char "." full = true).
  { unfold full. destruct (contains_char "." name) eqn:E; simpl.
    - exact E.
    - apply contains_char_append_r. reflexivity. }
  assert (Hfull : (String.length full <= 100)%nat).
  { unfold full. destruct (negb (contains_char "." name));
      [rewrite length_append; simpl|]; lia. }
  rewrite substring_short.
  - apply contains_char_filter; [reflexivity | exact Hdot].
  - pose proof (length_filter_string filename_char full). lia.
Qed.

(* ================================================================== *)
(** * Instances *)

Lemma screenshot_filename_has_extension_witness :
  contains_char "." (screenshot_filename "https://example.org/a/photo?size=2" 3)
  = true.
Proof.
  apply (screenshot_filename_has_extension
           "https://example.org/a/photo?size=2" 3).
  vm_compute. lia.
Defined.

Lemma save_image_screenshot_first_method_witness :
  save_image_screenshot sample_config steady_world album photo_record 0
  = (Ok (Some (path_join "screenshots"
                 (screenshot_filename "https://example.org/photo.png" 0))),
     [ElementScreenshot
        (path_join "screenshots"
           (screenshot_filename "https://example.org/photo.png" 0))]).
Proof.
  apply (save_image_screenshot_first_method sample_config steady_world album
           photo_record 0 photo); reflexivity.
Defined.

Lemma save_image_screenshot_relative_locator_witness :
  never is_page_call
    (save_image_screenshot sample_config steady_world gallery relative_record 0).
Proof.
  apply (save_image_screenshot_relative_locator sample_config steady_world
           gallery relative_record 0); reflexivity.
Defined.

Lemma probe_failures_do_not_abort_witness :
  (truthy (Some "https://example.org/photo.png") = false /\
   is_meaningful_image detached_photo torn_page = Ok None) \/
  (truthy (Some "https://example.org/photo.png") = true /\
   exists r, is_meaningful_image detached_photo torn_page = Ok (Some r) /\
             Some (ScrapedImage.src r) = Some "https://example.org/photo.png" /\
             ScrapedImage.url r = Page.url torn_page /\
             ScrapedImage.alt r = None).
Proof.
  apply (probe_failures_do_not_abort detached_photo torn_page
           (Some "https://example.org/photo.png") None
           (Some "300") (Some "300")); reflexivity.
Defined.

Lemma failed_geometry_is_not_logo_witness :
  ScrapedImage.is_header detached_record = None /\
  ScrapedImage.is_footer detached_record = None /\
  ScrapedImage.is_logo detached_record = false /\
  ScrapedImage.is_meaningful detached_record =
    (ScrapedImage.is_large_file detached_record
     && ScrapedImage.has_image_shape detached_record)%bool.
Proof.
  apply (failed_geometry_is_not_logo detached_photo gallery detached_record
           PlaywrightError).
  - reflexivity.
  - vm_compute. reflexivity.
Defined.

Lemma unknown_size_never_meaningful_witness :
  (ScrapedImage.file_size unprobed_record = None
   \/ ScrapedImage.file_size unprobed_record = Some (Int 0)) /\
  ScrapedImage.is_large_file unprobed_record = false /\
  ScrapedImage.is_meaningful unprobed_record = false.
Proof.
  apply (unknown_size_never_meaningful photo torn_page unprobed_record).
  - vm_compute. reflexivity.
  - left. exists PlaywrightError. reflexivity.
Defined.

Lemma meaningful_images_are_filtered_witness :
  [photo_shot] = filter ScrapedImage.is_meaningful [photo_shot].
Proof.
  apply (meaningful_images_are_filtered sample_config steady_world
           saved_context "https://example.org/" [photo_shot] [photo_shot] []
           front_page_trace).
  vm_compute. reflexivity.
Defined.

Lemma one_record_per_located_image_witness :
  exists images,
    Page.query_selector_all (web steady_world "https://example.org/") "img"
      = Ok images /\
    map ScrapedImage.src [photo_shot] = flat_map locator images /\
    Forall (fun r => ScrapedImage.url r
                     = Page.url (web steady_world "https://example.org/"))
      [photo_shot].
Proof.
  apply (one_record_per_located_image sample_config steady_world
           saved_context "https://example.org/" [photo_shot] [photo_shot] []
           front_page_trace).
  vm_compute. reflexivity.
Defined.

Lemma screenshot_only_for_meaningful_witness :
  ScrapedImage.is_meaningful photo_shot = true /\
  exists k, (k < List.length [photo_shot])%nat /\
    "screenshots/0_photo.png"
    = path_join (SCREENSHOT_DIR sample_config)
        (screenshot_filename (ScrapedImage.src photo_shot) k).
Proof.
  apply (screenshot_only_for_meaningful sample_config steady_world
           saved_context "https://example.org/" [photo_shot] [photo_shot] []
           front_page_trace).
  - vm_compute. reflexivity.
  - left. reflexivity.
  - reflexivity.
Defined.

Lemma extract_svgs_returns_witness :
  exists svgs t,
    extract_svgs sample_config drawings = (Ok svgs, t) /\
    (List.length svgs <= List.length drawings_inline
                         + List.length drawings_images
                         + List.length drawings_objects)%nat.
Proof.
  apply (extract_svgs_returns sample_config drawings drawings_inline
           drawings_images drawings_objects); reflexivity.
Defined.

Lemma inline_svgs_come_first_witness :
  exists inline referenced,
    drawings_svgs = inline ++ referenced /\
    Forall (fun r => ScrapedSVG.is_inline r = true) inline /\
    Forall (fun r => ScrapedSVG.is_inline r = false) referenced.
Proof.
  apply (inline_svgs_come_first sample_config drawings drawings_svgs
           drawings_trace).
  vm_compute. reflexivity.
Defined.

Lemma svg_dimensions_not_negative_witness :
  (forall n, ScrapedSVG.width inline_drawing = Some n -> 0 <= n) /\
  (forall n, ScrapedSVG.height inline_drawing = Some n -> 0 <= n).
Proof.
  apply (svg_dimensions_not_negative sample_config drawings drawings_svgs
           drawings_trace).
  - vm_compute. reflexivity.
  - left. reflexivity.
Defined.

Lemma unparsable_width_drops_inline_svg_witness :
  inline_svg sample_config drawings 0 squared_svg [inline_drawing]
  = (Ok [inline_drawing], []).
Proof.
  apply (unparsable_width_drops_inline_svg sample_config drawings 0
           squared_svg [inline_drawing] superscript_two (Some "24") ValueError);
    reflexivity.
Defined.

Lemma crawl_writes_gathered_lists_witness :
  let '(m, a, s) := gathered sample_config steady_world (firstn 10 two_links) in
  two_links_returned = m /\
  filter is_dump two_links_trace =
    [DumpImages (MEANINGFUL_IMAGE_FILE sample_config) m;
     DumpImages (ALL_IMAGES_FILE sample_config) a;
     DumpSVGs (SVGS_FILE sample_config) s] /\
  exists t0,
    two_links_trace
    = t0 ++ [DumpImages (MEANINGFUL_IMAGE_FILE sample_config) m;
             DumpImages (ALL_IMAGES_FILE sample_config) a;
             DumpSVGs (SVGS_FILE sample_config) s;
             CloseBrowser].
Proof.
  apply (crawl_writes_gathered_lists sample_config steady_world two_links
           two_links_returned two_links_trace).
  vm_compute. reflexivity.
Defined.

Lemma crawl_sleeps_once_per_page_witness :
  filter is_sleep two_links_trace
  = repeat (Sleep 1) (Nat.min 10 (List.length two_links)).
Proof.
  apply (crawl_sleeps_once_per_page sample_config steady_world two_links
           two_links_returned two_links_trace).
  vm_compute. reflexivity.
Defined.

Lemma cache_hit_skips_login_witness :
  authenticate sample_config fresh_session_world
  = (Ok (Context (Some "auth_state.json")),
     [Launch true 30000; NewContext (Some "auth_state.json");
      NewPage; Goto "https://example.org/" None; ClosePage]).
Proof.
  apply (cache_hit_skips_login sample_config fresh_session_world
           (inject_Z 1700082800)); reflexivity.
Defined.

Lemma missing_session_logs_in_witness :
  authenticate sample_config first_run_world =
    (call (Launch true 30000) (Ok tt) ;;
     fresh_login sample_config first_run_world)%M.
Proof.
  apply (missing_session_logs_in sample_config first_run_world). reflexivity.
Defined.

Lemma expired_session_logs_in_again_witness :
  authenticate sample_config logged_out_world
  = (fst (fresh_login sample_config logged_out_world),
     [Launch true 30000; NewContext (Some "auth_state.json");
      NewPage; Goto "https://example.org/" None; ClosePage]
     ++ snd (fresh_login sample_config logged_out_world)).
Proof.
  apply (expired_session_logs_in_again sample_config logged_out_world
           (inject_Z 1700082800)); reflexivity.
Defined.

Lemma validation_error_propagates_witness :
  authenticate sample_config unreachable_world
  = (Raise TimeoutError,
     [Launch true 30000; NewContext (Some "auth_state.json");
      NewPage; Goto "https://example.org/" None]).
Proof.
  apply (validation_error_propagates sample_config unreachable_world
           (inject_Z 1700082800) TimeoutError); reflexivity.
Defined.

